(** * Dynamixel servo control table: register access, cache and angle folding

    A shallow embedding of [servo.go].  Go's [int] is modelled as [Z] (no
    arithmetic in the modelled functions can overflow it), [byte]/[uint8] as
    [Byte.byte] with the wrap-around of [reg.address+1] written out, and
    [float64] as the IEEE 754 binary64 format of [SpecFloat].  The servo
    mutates itself through a pointer receiver and talks to a [Networker];
    both are threaded through an explicit state, together with the list of
    calls made on the network. *)

From Stdlib Require Import ZArith Lia List Bool String DecimalString.
From Stdlib.Strings Require Import Byte.
From Stdlib Require Import Floats.SpecFloat.
From stdpp Require Import base list.
Import ListNotations.

Local Open Scope Z_scope.

(** ** float64 *)

Module F64.
Definition prec : Z := 53.
Definition emax : Z := 1024.

Definition float64 : Type := spec_float.

(** The float64 nearest to an integer constant of the source. *)
Definition of_Z (z : Z) : float64 := binary_normalize prec emax z 0 false.

Definition add : float64 -> float64 -> float64 := SFadd prec emax.
Definition sub : float64 -> float64 -> float64 := SFsub prec emax.
Definition ltb : float64 -> float64 -> bool := SFltb.
Definition leb : float64 -> float64 -> bool := SFleb.
(** Go's [a > b]. *)
Definition gtb (a b : float64) : bool := ltb b a.

End F64.

(** [normalizeAngle] recurses on a float, so the recursion is neither
    structural nor obviously well founded: [fuel] bounds the depth of the
    call stack, and [None] means that this depth was not enough. *)
Fixpoint normalizeAngle (fuel : nat) (d : F64.float64) : option F64.float64 :=
  match fuel with
  | O => None
  | S fuel' =>
      if F64.gtb d (F64.of_Z 180) then
        normalizeAngle fuel' (F64.sub d (F64.of_Z 360))
      else if F64.ltb d (F64.of_Z (-180)) then
        normalizeAngle fuel' (F64.add d (F64.of_Z 360))
      else Some d
  end.


(** ** Bytes *)

Definition byte_to_Z (b : byte) : Z := Z.of_N (Byte.to_N b).

(** Go's conversion [byte(i)]: the low eight bits. *)
Definition byte_of_Z (z : Z) : byte :=
  match Byte.of_N (Z.to_N (z mod 256)) with
  | Some b => b
  | None => x00
  end.

(** [a + 1] on a [byte]: wraps from 255 to 0. *)
Definition byte_succ (a : byte) : byte := byte_of_Z (byte_to_Z a + 1).

(** Modelled from the spec: the helpers [low] and [high] are called by
    [servo.go] but declared elsewhere in the package.  The spec has a value
    split into its low and, for width 2, high byte, little-endian. *)
Definition low (i : Z) : byte := byte_of_Z (Z.land i 255).
Definition high (i : Z) : byte := low (Z.shiftr i 8).

(** Modelled from the spec: [btoi] is declared elsewhere in the package; the
    spec's boolean coercion has nonzero for true, and the registers it feeds
    range over 0..1. *)
Definition btoi (b : bool) : Z := if b then 1 else 0.

(** ** Constants *)

Definition tableSize : Z := 50.
Definition addrID : byte := x03.
Definition addrStatusReturnLevel : byte := x10.
Definition addrGoalPosition : byte := x1e.
Definition addrTorqueLimit : byte := x22.
Definition maxPos : Z := 1023.
Definition maxSpeed : Z := 1023.

(** ** Registers

    The [Register] struct, the [Access] constants and the [registers] table
    are declared outside [servo.go]; the record below has the fields that
    [servo.go] reads, at the types it uses them with. *)

Inductive Access := ro | rw.

Module Register.
Record t := {
  address : byte;
  length : Z;
  access : Access;
  cacheable : bool;
  min : Z;
  max : Z
}.
End Register.

(** The register names that [servo.go] looks up. *)
Inductive RegName :=
  | modelNumber | firmwareVersion | torqueEnable | led | goalPosition
  | movingSpeed | presentPosition | presentSpeed | presentLoad
  | presentVoltage | presentTemperature | registered | moving | lock.

(** The register's bytes lie inside the control table, as the spec's data
    model has it (the table size is the highest address plus its width). *)
Definition in_table (reg : Register.t) : Prop :=
  byte_to_Z (Register.address reg) + Register.length reg <= tableSize.

(** ** Errors, calls on the network *)

(** An argument of a [Log] call ([interface{}] in Go). *)
Inductive LogArg := LInt (i : Z) | LBool (b : bool).

Inductive Call :=
  | CallReadData (ident addr : byte) (n : Z)
  | CallWriteData (ident : byte) (expectAck : bool) (params : list byte)
  | CallPing (ident : byte)
  | CallLog (format : string) (args : list LogArg).

(** The calls that reach the device: everything but the diagnostic [Log]. *)
Definition is_device_call (c : Call) : bool :=
  match c with CallLog _ _ => false | _ => true end.

Definition device_calls (cs : list Call) : list Call :=
  List.filter is_device_call cs.

Record DynamixelServo := {
  Ident : byte;
  zeroAngle : F64.float64;
  cache : list byte;
  statusReturnLevel : Z
}.

(** Assignment to one field of the struct. *)
Definition withCache (s : DynamixelServo) (c : list byte) : DynamixelServo :=
  {| Ident := Ident s; zeroAngle := zeroAngle s; cache := c;
     statusReturnLevel := statusReturnLevel s |}.

Definition withLevel (s : DynamixelServo) (level : Z) : DynamixelServo :=
  {| Ident := Ident s; zeroAngle := zeroAngle s; cache := cache s;
     statusReturnLevel := level |}.

(** The cache is a Go array: it always holds [tableSize] bytes. *)
Definition cache_ok (s : DynamixelServo) : Prop :=
  Z.of_nat (List.length (cache s)) = tableSize.

(** A computation either returns or panics (an index out of range, a nil
    register pointer). *)
Inductive Res (A : Type) := Done (a : A) | Panic.
Arguments Done {A} a.
Arguments Panic {A}.

(** The bytes of the cache that a register covers, and the little-endian
    reading and writing of an unsigned integer, as the spec words them. *)
Definition cacheRange (s : DynamixelServo) (reg : Register.t) : list byte :=
  take (Z.to_nat (Register.length reg))
       (drop (Z.to_nat (byte_to_Z (Register.address reg))) (cache s)).

Fixpoint decodeLE (bs : list byte) : Z :=
  match bs with
  | [] => 0
  | b :: bs' => byte_to_Z b + 256 * decodeLE bs'
  end.

Fixpoint encodeLE (width : nat) (value : Z) : list byte :=
  match width with
  | O => []
  | S width' => low value :: encodeLE width' (Z.shiftr value 8)
  end.

Section Servo.
(** The network is an interface value: an implementation with a state of
    its own and errors of its own. *)
Context {NetState NetErr : Type}.

Record Networker := {
  ReadData : byte -> byte -> Z -> NetState -> (list byte * option NetErr) * NetState;
  WriteData : byte -> bool -> list byte -> NetState -> option NetErr * NetState;
  Ping : byte -> NetState -> option NetErr * NetState;
  Log : string -> list LogArg -> NetState -> NetState
}.

(** Go's [error] values of this file; [None] is [nil]. *)
Inductive Error :=
  | NetError (e : NetErr)
  | ErrControlTableSize (got : Z)
  | ErrRegisterLength (len : Z)
  | ErrStatusLevelZero
  | ErrByteCount (expected got : Z)
  | ErrReadOnly
  | ErrValueTooLow (value min : Z)
  | ErrValueTooHigh (value max : Z)
  | ErrGoalPositionRange
  | ErrMovingSpeedRange
  | ErrLockValue
  | ErrEEPROMLocked
  | ErrTorqueLimitRange
  | ErrStatusReturnLevel (value : Z).

Definition wrap (e : option NetErr) : option Error :=
  match e with Some x => Some (NetError x) | None => None end.

Record World := {
  servo : DynamixelServo;
  netState : NetState;
  calls : list Call
}.

Definition M (A : Type) : Type := World -> Res A * World.

Definition ret {A} (a : A) : M A := fun w => (Done a, w).

Definition bind {A B} (m : M A) (k : A -> M B) : M B :=
  fun w =>
    match m w with
    | (Done a, w') => k a w'
    | (Panic, w') => (Panic, w')
    end.

Definition panic {A} : M A := fun w => (Panic, w).

Notation "'let*' x ':=' m 'in' k" := (bind m (fun x => k))
  (at level 10, x pattern, m at level 100, k at level 200).

Variable net : Networker.
Variable registers : RegName -> option Register.t.

Definition getServo : M DynamixelServo := fun w => (Done (servo w), w).

Definition putServo (s : DynamixelServo) : M unit :=
  fun w => (Done tt, {| servo := s; netState := netState w; calls := calls w |}).

(** [servo.cache[i]] *)
Definition cacheGet (i : Z) : M byte :=
  let* s := getServo in
  if (0 <=? i) && (i <? tableSize)
  then ret (default x00 (cache s !! Z.to_nat i))
  else panic.

(** [servo.cache[i] = b] *)
Definition cacheSet (i : Z) (b : byte) : M unit :=
  let* s := getServo in
  if (0 <=? i) && (i <? tableSize)
  then putServo (withCache s (<[Z.to_nat i := b]> (cache s)))
  else panic.

(** [servo.Network.ReadData(ident, addr, n)] *)
Definition netReadData (ident addr : byte) (n : Z) : M (list byte * option NetErr) :=
  fun w =>
    let (r, ns) := ReadData net ident addr n (netState w) in
    (Done r, {| servo := servo w; netState := ns;
                calls := calls w ++ [CallReadData ident addr n] |}).

(** [servo.Network.WriteData(ident, expectAck, params...)] *)
Definition netWriteData (ident : byte) (expectAck : bool) (params : list byte)
  : M (option NetErr) :=
  fun w =>
    let (r, ns) := WriteData net ident expectAck params (netState w) in
    (Done r, {| servo := servo w; netState := ns;
                calls := calls w ++ [CallWriteData ident expectAck params] |}).

(** [servo.Network.Log(format, v...)] *)
Definition netLog (format : string) (v : list LogArg) : M unit :=
  fun w =>
    (Done tt, {| servo := servo w; netState := Log net format v (netState w);
                 calls := calls w ++ [CallLog format v] |}).

(** [*registers[name]]: a name missing from the map yields a nil pointer. *)
Definition deref (name : RegName) : M Register.t :=
  match registers name with
  | Some reg => ret reg
  | None => panic
  end.

Definition logMethod (format : string) (v : list LogArg) : M unit :=
  let* s := getServo in
  let prefix :=
    ("servo[" ++ NilZero.string_of_uint (N.to_uint (Byte.to_N (Ident s))) ++ "].")%string in
  netLog (prefix ++ format)%string v.

(** The loop of [updateCache]: [for ; i < tableSize; i++ { cache[i] = b[i] }],
    with [n] iterations left. *)
Fixpoint copyTable (n : nat) (i : Z) (b : list byte) : M unit :=
  match n with
  | O => ret tt
  | S n' =>
      match b !! Z.to_nat i with
      | Some x => let* _ := cacheSet i x in copyTable n' (i + 1) b
      | None => panic
      end
  end.

Definition updateCache : M (option Error) :=
  let* s := getServo in
  let* (b, err) := netReadData (Ident s) x00 tableSize in
  match err with
  | Some e => ret (Some (NetError e))
  | None =>
      if negb (Z.of_nat (List.length b) =? tableSize)
      then ret (Some (ErrControlTableSize (Z.of_nat (List.length b))))
      else let* _ := copyTable (Z.to_nat tableSize) 0 b in ret None
  end.

(** [NewServo] builds the struct, refreshes the cache and returns the
    pointer whatever [updateCache] returned. *)
Definition NewServo (ident : byte) : NetState -> Res DynamixelServo * World :=
  fun ns =>
    let s := {| Ident := ident; zeroAngle := F64.of_Z 150;
                cache := replicate (Z.to_nat tableSize) x00;
                statusReturnLevel := 2 |} in
    (let* _ := updateCache in getServo)
      {| servo := s; netState := ns; calls := [] |}.

Definition getRegister (reg : Register.t) : M (Z * option Error) :=
  if negb (Register.length reg =? 1) && negb (Register.length reg =? 2)
  then ret (0, Some (ErrRegisterLength (Register.length reg)))
  else if Register.cacheable reg then
    let* b0 := cacheGet (byte_to_Z (Register.address reg)) in
    let v := byte_to_Z b0 in
    if Register.length reg =? 2 then
      let* b1 := cacheGet (byte_to_Z (byte_succ (Register.address reg))) in
      ret (Z.lor v (Z.shiftl (byte_to_Z b1) 8), None)
    else ret (v, None)
  else
    let* s := getServo in
    if statusReturnLevel s =? 0 then ret (0, Some ErrStatusLevelZero)
    else
      let* (b, err) := netReadData (Ident s) (Register.address reg) (Register.length reg) in
      match err with
      | Some e => ret (0, Some (NetError e))
      | None =>
          match b with
          | [b0] =>
              let* _ := cacheSet (byte_to_Z (Register.address reg)) b0 in
              ret (byte_to_Z b0, None)
          | [b0; b1] =>
              let* _ := cacheSet (byte_to_Z (Register.address reg)) b0 in
              let* _ := cacheSet (byte_to_Z (byte_succ (Register.address reg))) b1 in
              ret (Z.lor (byte_to_Z b0) (Z.shiftl (byte_to_Z b1) 8), None)
          | _ =>
              ret (0, Some (ErrByteCount (Register.length reg) (Z.of_nat (List.length b))))
          end
      end.

Definition writeData (params : list byte) : M (option Error) :=
  let* s := getServo in
  let* e := netWriteData (Ident s) (statusReturnLevel s =? 2) params in
  ret (wrap e).

(** The value returned by [servo.writeData] is dropped in both cases of
    the switch, as in the source. *)
Definition setRegister (reg : Register.t) (value : Z) : M (option Error) :=
  match Register.access reg with
  | ro => ret (Some ErrReadOnly)
  | rw =>
      if value <? Register.min reg
      then ret (Some (ErrValueTooLow value (Register.min reg)))
      else if value >? Register.max reg
      then ret (Some (ErrValueTooHigh value (Register.max reg)))
      else if Register.length reg =? 1 then
        let* _ := writeData [Register.address reg; low value] in
        let* _ := cacheSet (byte_to_Z (Register.address reg)) (low value) in
        ret None
      else if Register.length reg =? 2 then
        let* _ := writeData [Register.address reg; low value; high value] in
        let* _ := cacheSet (byte_to_Z (Register.address reg)) (low value) in
        let* _ := cacheSet (byte_to_Z (byte_succ (Register.address reg))) (high value) in
        ret None
      else ret (Some (ErrRegisterLength (Register.length reg)))
  end.

Definition SetTorqueEnable (state : bool) : M (option Error) :=
  let* _ := logMethod "SetTorqueEnable(%t)" [LBool state] in
  let* reg := deref torqueEnable in
  setRegister reg (btoi state).

Definition SetLED (state : bool) : M (option Error) :=
  let* reg := deref led in
  setRegister reg (btoi state).

Definition SetGoalPosition (pos : Z) : M (option Error) :=
  let* reg := deref goalPosition in
  if (pos <? Register.min reg) || (pos >? Register.max reg)
  then ret (Some ErrGoalPositionRange)
  else setRegister reg pos.

Definition SetMovingSpeed (speed : Z) : M (option Error) :=
  if (speed <? 0) || (speed >? maxSpeed)
  then ret (Some ErrMovingSpeedRange)
  else
    let* reg := deref movingSpeed in
    setRegister reg speed.

Definition SetLock (isLocked : Z) : M (option Error) :=
  if (isLocked >? 1) || (isLocked <? 0)
  then ret (Some ErrLockValue)
  else
    let* reg := deref lock in
    let* locked :=
      (if isLocked =? 0
       then let* b := cacheGet (byte_to_Z (Register.address reg)) in
            ret (byte_to_Z b =? 1)
       else ret false) in
    if locked then ret (Some ErrEEPROMLocked)
    else setRegister reg isLocked.

Definition SetTorqueLimit (limit : Z) : M (option Error) :=
  let* _ := logMethod "SetTorqueLimit(%d)" [LInt limit] in
  if (limit <? 0) || (limit >? 1023)
  then ret (Some ErrTorqueLimitRange)
  else writeData [addrTorqueLimit; low limit; high limit].

Definition SetStatusReturnLevel (value : Z) : M (option Error) :=
  let* _ := logMethod "SetStatusReturnLevel(%d)" [LInt value] in
  if (value <? 0) || (value >? 2)
  then ret (Some (ErrStatusReturnLevel value))
  else
    let* s := getServo in
    let* err := netWriteData (Ident s) (value =? 2) [addrStatusReturnLevel; low value] in
    match err with
    | Some e => ret (Some (NetError e))
    | None =>
        let* s := getServo in
        let* _ := putServo (withLevel s value) in
        ret None
    end.

(** The setters of [servo.go] that end in a call of [setRegister], with the
    register each one names and the value it hands over. *)
Inductive NamedWrite :=
  | WTorqueEnable (state : bool)
  | WLED (state : bool)
  | WGoalPosition (pos : Z)
  | WMovingSpeed (speed : Z)
  | WLock (isLocked : Z).

Definition runWrite (op : NamedWrite) : M (option Error) :=
  match op with
  | WTorqueEnable state => SetTorqueEnable state
  | WLED state => SetLED state
  | WGoalPosition pos => SetGoalPosition pos
  | WMovingSpeed speed => SetMovingSpeed speed
  | WLock isLocked => SetLock isLocked
  end.

Definition writeName (op : NamedWrite) : RegName :=
  match op with
  | WTorqueEnable _ => torqueEnable
  | WLED _ => led
  | WGoalPosition _ => goalPosition
  | WMovingSpeed _ => movingSpeed
  | WLock _ => lock
  end.

Definition writeValue (op : NamedWrite) : Z :=
  match op with
  | WTorqueEnable state => btoi state
  | WLED state => btoi state
  | WGoalPosition pos => pos
  | WMovingSpeed speed => speed
  | WLock isLocked => isLocked
  end.

(** What [updateCache] takes for a failed refresh: an error from the
    transport, or a reply that is not [tableSize] bytes long. *)
Definition refresh_failed (r : list byte * option NetErr) : Prop :=
  snd r <> None \/ Z.of_nat (List.length (fst r)) <> tableSize.
End Servo.

Arguments Networker : clear implicits.
Arguments Error : clear implicits.
Arguments World : clear implicits.
Arguments M : clear implicits.

(** ** The named getters and the identity setter *)

(** Modelled from the spec: [itob] is declared elsewhere in the package; the
    spec's boolean coercion has nonzero for true. *)
Definition itob (v : Z) : bool := negb (v =? 0).

Definition withIdent (s : DynamixelServo) (i : byte) : DynamixelServo :=
  {| Ident := i; zeroAngle := zeroAngle s; cache := cache s;
     statusReturnLevel := statusReturnLevel s |}.

Section Accessors.
Context {NetState NetErr : Type}.
Variable net : Networker NetState NetErr.
Variable registers : RegName -> option Register.t.

Notation "'let*' x ':=' m 'in' k" := (bind m (fun x => k))
  (at level 10, x pattern, m at level 100, k at level 200).

Definition ModelNumber : M NetState (Z * option (Error NetErr)) :=
  let* reg := deref registers modelNumber in getRegister net reg.

Definition FirmwareVersion : M NetState (Z * option (Error NetErr)) :=
  let* reg := deref registers firmwareVersion in getRegister net reg.

Definition PresentSpeed : M NetState (Z * option (Error NetErr)) :=
  let* reg := deref registers presentSpeed in getRegister net reg.

Definition TorqueEnable : M NetState (bool * option (Error NetErr)) :=
  let* reg := deref registers torqueEnable in
  let* (v, err) := getRegister net reg in
  ret (itob v, err).

Definition LED : M NetState (bool * option (Error NetErr)) :=
  let* reg := deref registers led in
  let* (v, err) := getRegister net reg in
  ret (itob v, err).

Definition GoalPosition : M NetState (Z * option (Error NetErr)) :=
  let* reg := deref registers goalPosition in getRegister net reg.

Definition MovingSpeed : M NetState (Z * option (Error NetErr)) :=
  let* reg := deref registers movingSpeed in getRegister net reg.

Definition PresentPosition : M NetState (Z * option (Error NetErr)) :=
  let* reg := deref registers presentPosition in getRegister net reg.

Definition PresentVoltage : M NetState (Z * option (Error NetErr)) :=
  let* reg := deref registers presentVoltage in getRegister net reg.

Definition PresentLoad : M NetState (Z * option (Error NetErr)) :=
  let* reg := deref registers presentLoad in getRegister net reg.

Definition PresentTemperature : M NetState (Z * option (Error NetErr)) :=
  let* reg := deref registers presentTemperature in getRegister net reg.

Definition Registered : M NetState (Z * option (Error NetErr)) :=
  let* reg := deref registers registered in getRegister net reg.

Definition Moving : M NetState (Z * option (Error NetErr)) :=
  let* reg := deref registers moving in getRegister net reg.

Definition Lock : M NetState (Z * option (Error NetErr)) :=
  let* reg := deref registers lock in getRegister net reg.

(** [Position] is an alias for [PresentPosition]. *)
Definition Position : M NetState (Z * option (Error NetErr)) := PresentPosition.

(** The errors of [SetIdent]: its own, or the one [writeData] returned. *)
Inductive IdentError :=
  | ErrInvalidID (i : byte)
  | IdentWriteError (e : Error NetErr).

(** [i < 0] is kept as the source has it, on a byte. *)
Definition SetIdent (ident : Z) : M NetState (option IdentError) :=
  let* _ := logMethod net "SetIdent(%d, %d)" [LInt ident] in
  let i := low ident in
  if (byte_to_Z i <? 0) || (byte_to_Z i >? 252)
  then ret (Some (ErrInvalidID i))
  else
    let* err := writeData net [addrID; i] in
    match err with
    | Some e => ret (Some (IdentWriteError e))
    | None =>
        let* s := getServo in
        let* _ := putServo (withIdent s i) in
        ret None
    end.

(** The getter that reads back what a named write wrote. *)
Definition readBack (op : NamedWrite) : M NetState (Z * option (Error NetErr)) :=
  match op with
  | WTorqueEnable _ =>
      let* (b, err) := TorqueEnable in ret (btoi b, err)
  | WLED _ =>
      let* (b, err) := LED in ret (btoi b, err)
  | WGoalPosition _ => GoalPosition
  | WMovingSpeed _ => MovingSpeed
  | WLock _ => Lock
  end.
End Accessors.

Arguments IdentError : clear implicits.

(** ** Instances used to run the model

    A catalog in the shape of a servo control table (the package's own table
    is not part of [servo.go]) and three networks: one that answers every
    read with a fixed reply and accepts every write, one that fails every
    call, and one that fails reads with a short reply. *)

Definition mkReg (a : byte) (len : Z) (acc : Access) (c : bool) (lo hi : Z) : Register.t :=
  {| Register.address := a; Register.length := len; Register.access := acc;
     Register.cacheable := c; Register.min := lo; Register.max := hi |}.

Definition regModelNumber : Register.t := mkReg x00 2 ro true 0 65535.
Definition regTorqueEnable : Register.t := mkReg x18 1 rw true 0 1.
Definition regLed : Register.t := mkReg x19 1 rw true 0 1.
Definition regGoalPosition : Register.t := mkReg addrGoalPosition 2 rw true 0 1023.
Definition regMovingSpeed : Register.t := mkReg x20 2 rw true 0 1023.
Definition regPresentPosition : Register.t := mkReg x24 2 ro false 0 1023.
Definition regPresentTemperature : Register.t := mkReg x2b 1 ro false 0 255.
Definition regLock : Register.t := mkReg x2f 1 rw true 0 1.
Definition regTorqueLimit : Register.t := mkReg addrTorqueLimit 2 rw true 0 1023.

Definition demoRegisters (name : RegName) : option Register.t :=
  match name with
  | modelNumber => Some regModelNumber
  | torqueEnable => Some regTorqueEnable
  | led => Some regLed
  | goalPosition => Some regGoalPosition
  | movingSpeed => Some regMovingSpeed
  | presentPosition => Some regPresentPosition
  | presentTemperature => Some regPresentTemperature
  | lock => Some regLock
  | _ => None
  end.

Definition replyNet (reply : list byte) : Networker unit string :=
  {| ReadData := fun _ _ _ ns => ((reply, None), ns);
     WriteData := fun _ _ _ ns => (None, ns);
     Ping := fun _ ns => (None, ns);
     Log := fun _ _ ns => ns |}.

Definition downNet : Networker unit string :=
  {| ReadData := fun _ _ _ ns => (([], Some "timeout"%string), ns);
     WriteData := fun _ _ _ ns => (Some "timeout"%string, ns);
     Ping := fun _ ns => (Some "timeout"%string, ns);
     Log := fun _ _ ns => ns |}.

Definition freshServo (level : Z) : DynamixelServo :=
  {| Ident := x01; zeroAngle := F64.of_Z 150;
     cache := replicate (Z.to_nat tableSize) x00;
     statusReturnLevel := level |}.

Definition freshWorld (level : Z) : World unit :=
  {| servo := freshServo level; netState := tt; calls := [] |}.

(** A world whose cache holds 0x0234 in the goal position, low byte first. *)
Definition movedWorld : World unit :=
  {| servo := withCache (freshServo 2)
                (<[31%nat := x02]> (<[30%nat := x34]> (cache (freshServo 2))));
     netState := tt; calls := [] |}.

(** A network with one servo behind it, whose control table is the state:
    a read returns the bytes at the address, a write (address first, then
    the data) stores them.  It ignores the identity and never fails. *)
Definition tableNet : Networker (list byte) string :=
  {| ReadData := fun _ addr n mem =>
       ((take (Z.to_nat n) (drop (Z.to_nat (byte_to_Z addr)) mem), None), mem);
     WriteData := fun _ _ params mem =>
       match params with
       | addr :: data => (None, list_inserts (Z.to_nat (byte_to_Z addr)) data mem)
       | [] => (None, mem)
       end;
     Ping := fun _ mem => (None, mem);
     Log := fun _ _ mem => mem |}.

(** The table of a servo numbered 1, at position 0x0234 and 0x20 degrees. *)
Definition sampleTable : list byte :=
  <[43%nat := x20]> (<[37%nat := x02]> (<[36%nat := x34]>
    (<[16%nat := x02]> (<[3%nat := x01]> (replicate 50%nat x00))))).

Definition tableWorld (level : Z) : World (list byte) :=
  {| servo := freshServo level; netState := sampleTable; calls := [] |}.

(** A world whose cached lock byte reads 1. *)
Definition lockedWorld : World unit :=
  {| servo := withCache (freshServo 2) (<[47%nat := x01]> (cache (freshServo 2)));
     netState := tt; calls := [] |}.

(** ** Theorems *)

Lemma normalizeAngle_unfold fuel d :
  normalizeAngle (S fuel) d =
    if F64.gtb d (F64.of_Z 180) then
      normalizeAngle fuel (F64.sub d (F64.of_Z 360))
    else if F64.ltb d (F64.of_Z (-180)) then
      normalizeAngle fuel (F64.add d (F64.of_Z 360))
    else Some d.
Proof. reflexivity. Qed.

Lemma SFcompare_antisym x y c :
  SFcompare x y = Some c -> SFcompare y x = Some (CompOpp c).
Proof.
  destruct x as [sx|sx| |sx mx ex], y as [sy|sy| |sy my ey]; simpl;
    try discriminate;
    try (intros [= <-]; repeat match goal with b : bool |- _ => destruct b end;
         reflexivity).
  intros [= <-]. f_equal.
  destruct sx, sy; try reflexivity.
  - rewrite (Z.compare_antisym ex ey).
    destruct (ex ?= ey)%Z; simpl; try reflexivity.
    change (Pos.compare_cont Eq my mx) with (Pos.compare my mx).
    change (Pos.compare_cont Eq mx my) with (Pos.compare mx my).
    rewrite (Pos.compare_antisym mx my). now destruct (mx ?= my)%positive.
  - rewrite (Z.compare_antisym ex ey).
    destruct (ex ?= ey)%Z; simpl; try reflexivity.
    change (Pos.compare_cont Eq my mx) with (Pos.compare my mx).
    change (Pos.compare_cont Eq mx my) with (Pos.compare mx my).
    rewrite (Pos.compare_antisym mx my). now destruct (mx ?= my)%positive.
Qed.



Lemma normalizeAngle_fuel_mono fuel k d r :
  normalizeAngle fuel d = Some r -> normalizeAngle (fuel + k) d = Some r.
Proof.
  revert d. induction fuel as [|fuel IH]; intros d H; [discriminate|].
  change (S fuel + k)%nat with (S (fuel + k)).
  rewrite normalizeAngle_unfold in *.
  destruct (F64.gtb d (F64.of_Z 180)); [now apply IH|].
  destruct (F64.ltb d (F64.of_Z (-180))); [now apply IH|].
  exact H.
Qed.





(** C5 fails at 1e19: there [d - 360] rounds back to [d], so every call
    makes the same call again and no depth of recursion reaches the
    last branch. *)
Theorem normalizeAngle_1e19_never_returns :
  forall fuel, normalizeAngle fuel (F64.of_Z (10 ^ 19)) = None.
Proof.
  assert (Hgt : F64.gtb (F64.of_Z (10 ^ 19)) (F64.of_Z 180) = true)
    by (vm_compute; reflexivity).
  assert (Hsub : F64.sub (F64.of_Z (10 ^ 19)) (F64.of_Z 360) = F64.of_Z (10 ^ 19))
    by (vm_compute; reflexivity).
  induction fuel as [|fuel IH]; [reflexivity|].
  rewrite normalizeAngle_unfold, Hgt, Hsub. exact IH.
Qed.

(** *** Bytes *)

Lemma byte_to_Z_range b : 0 <= byte_to_Z b < 256.
Proof. unfold byte_to_Z. pose proof (Byte.to_N_bounded b). lia. Qed.

Lemma byte_to_of_Z z : byte_to_Z (byte_of_Z z) = z mod 256.
Proof.
  unfold byte_to_Z, byte_of_Z.
  pose proof (Z.mod_pos_bound z 256 ltac:(lia)) as Hm.
  destruct (Byte.of_N (Z.to_N (z mod 256))) as [b|] eqn:E.
  - apply Byte.to_of_N in E. rewrite E. apply Z2N.id. lia.
  - apply Byte.of_N_None_iff in E. lia.
Qed.

Lemma byte_succ_to_Z a :
  byte_to_Z a < 255 -> byte_to_Z (byte_succ a) = byte_to_Z a + 1.
Proof.
  intros H. unfold byte_succ. rewrite byte_to_of_Z.
  pose proof (byte_to_Z_range a). apply Z.mod_small. lia.
Qed.

(** [lo | hi<<8] adds up when [lo] is a byte. *)
Lemma lor_shiftl_8 x y : 0 <= x < 256 -> Z.lor x (Z.shiftl y 8) = x + 256 * y.
Proof.
  intros Hx. pose proof (Z.add_lor_land x (Z.shiftl y 8)) as Hadd.
  assert (Z.land x (Z.shiftl y 8) = 0) as Hland.
  { apply Z.bits_inj'. intros n Hn. rewrite Z.land_spec, Z.bits_0.
    destruct (Z.lt_ge_cases n 8) as [Hlt|Hge].
    - rewrite (Z.shiftl_spec_low y 8 n Hlt). apply andb_false_r.
    - assert (Z.testbit x n = false) as ->; [|reflexivity].
      destruct (Z.eq_dec x 0) as [->|Hnz]; [apply Z.bits_0|].
      apply Z.bits_above_log2; [lia|].
      assert (Z.log2 x < 8); [|lia].
      apply Z.log2_lt_pow2; lia. }
  rewrite Hland, Z.shiftl_mul_pow2 in Hadd by lia.
  rewrite Z.shiftl_mul_pow2 by lia. change (2 ^ 8) with 256 in *. lia.
Qed.

Lemma byte_to_Z_low v : byte_to_Z (low v) = v mod 256.
Proof.
  unfold low. rewrite byte_to_of_Z.
  change 255 with (Z.ones 8). rewrite Z.land_ones by lia.
  change (2 ^ 8) with 256. apply Z.mod_mod. lia.
Qed.

(** [low] and [high] are the little-endian bytes of a 16-bit value: reading
    them back gives the value. *)
Lemma decodeLE_encodeLE_2 v : 0 <= v < 65536 -> decodeLE (encodeLE 2 v) = v.
Proof.
  intros Hv. cbn [encodeLE decodeLE]. rewrite !byte_to_Z_low.
  rewrite Z.shiftr_div_pow2 by lia. change (2 ^ 8) with 256.
  rewrite (Z.mod_small (v / 256) 256)
    by (split; [apply Z.div_pos; lia | apply Z.div_lt_upper_bound; lia]).
  pose proof (Z.div_mod v 256 ltac:(lia)). lia.
Qed.

Lemma decodeLE_encodeLE_1 v : 0 <= v < 256 -> decodeLE (encodeLE 1 v) = v.
Proof.
  intros Hv. cbn [encodeLE decodeLE]. rewrite byte_to_Z_low.
  rewrite Z.mod_small by lia. lia.
Qed.

(** *** The cache as an array *)

Section ServoFacts.
Context {NetState NetErr : Type}.
Variable net : Networker NetState NetErr.

Lemma cacheGet_in_range i (w : World NetState) :
  0 <= i < tableSize ->
  cacheGet i w = (Done (default x00 (cache (servo w) !! Z.to_nat i)), w).
Proof.
  intros H. unfold cacheGet, bind, getServo, ret.
  assert ((0 <=? i) && (i <? tableSize) = true) as ->; [|reflexivity].
  apply andb_true_iff. split; [apply Z.leb_le | apply Z.ltb_lt]; lia.
Qed.

Lemma cacheGet_outside i (w : World NetState) :
  ~ 0 <= i < tableSize -> cacheGet i w = (Panic, w).
Proof.
  intros H. unfold cacheGet, bind, getServo, panic.
  assert ((0 <=? i) && (i <? tableSize) = false) as ->; [|reflexivity].
  apply andb_false_iff. rewrite Z.leb_gt, Z.ltb_ge. lia.
Qed.

Lemma cacheSet_in_range i b (w : World NetState) :
  0 <= i < tableSize ->
  cacheSet i b w =
    (Done tt, {| servo := withCache (servo w) (<[Z.to_nat i := b]> (cache (servo w)));
                 netState := netState w; calls := calls w |}).
Proof.
  intros H. unfold cacheSet, bind, getServo, putServo.
  assert ((0 <=? i) && (i <? tableSize) = true) as ->; [|reflexivity].
  apply andb_true_iff. split; [apply Z.leb_le | apply Z.ltb_lt]; lia.
Qed.

Lemma cacheSet_outside i b (w : World NetState) :
  ~ 0 <= i < tableSize -> cacheSet i b w = (Panic, w).
Proof.
  intros H. unfold cacheSet, bind, getServo, panic.
  assert ((0 <=? i) && (i <? tableSize) = false) as ->; [|reflexivity].
  apply andb_false_iff. rewrite Z.leb_gt, Z.ltb_ge. lia.
Qed.
End ServoFacts.

(** The register's bytes, read off the list. *)
Lemma cacheRange_1 s reg :
  cache_ok s -> Register.length reg = 1 -> in_table reg ->
  cacheRange s reg =
    [default x00 (cache s !! Z.to_nat (byte_to_Z (Register.address reg)))].
Proof.
  unfold cache_ok, in_table, cacheRange, tableSize. intros Hok Hlen Hin.
  pose proof (byte_to_Z_range (Register.address reg)) as Ha.
  rewrite Hlen in *.
  destruct (lookup_lt_is_Some_2 (cache s) (Z.to_nat (byte_to_Z (Register.address reg))))
    as [x Hx]; [lia|].
  rewrite Hx, (drop_S _ _ _ Hx). reflexivity.
Qed.

Lemma cacheRange_2 s reg :
  cache_ok s -> Register.length reg = 2 -> in_table reg ->
  cacheRange s reg =
    [default x00 (cache s !! Z.to_nat (byte_to_Z (Register.address reg)));
     default x00 (cache s !! Z.to_nat (byte_to_Z (Register.address reg) + 1))].
Proof.
  unfold cache_ok, in_table, cacheRange, tableSize. intros Hok Hlen Hin.
  pose proof (byte_to_Z_range (Register.address reg)) as Ha.
  rewrite Hlen in *.
  destruct (lookup_lt_is_Some_2 (cache s) (Z.to_nat (byte_to_Z (Register.address reg))))
    as [x Hx]; [lia|].
  destruct (lookup_lt_is_Some_2 (cache s) (Z.to_nat (byte_to_Z (Register.address reg) + 1)))
    as [y Hy]; [lia|].
  rewrite Hx, Hy, (drop_S _ _ _ Hx).
  replace (Z.to_nat (byte_to_Z (Register.address reg) + 1))
    with (S (Z.to_nat (byte_to_Z (Register.address reg)))) in Hy by lia.
  rewrite (drop_S _ _ _ Hy). reflexivity.
Qed.

(** *** Reading a register *)

Section RegisterAccess.
Context {NetState NetErr : Type}.
Variable net : Networker NetState NetErr.

(** C9: a cacheable register of width 1 or 2 is served from the cache.
    [getRegister] returns, with a nil error, the little-endian reading of
    the register's cache bytes (the low byte, plus 256 times the next byte
    for width 2), and the world it leaves is the world it found: no call
    on the network, no change to the servo. *)
Theorem getRegister_cacheable_reads_cache reg (w : World NetState) :
  Register.cacheable reg = true ->
  Register.length reg = 1 \/ Register.length reg = 2 ->
  in_table reg ->
  cache_ok (servo w) ->
  getRegister net reg w = (Done (decodeLE (cacheRange (servo w) reg), None), w).
Proof.
  intros Hc Hlen Hin Hok.
  pose proof (byte_to_Z_range (Register.address reg)) as Ha.
  unfold getRegister. rewrite Hc.
  destruct Hlen as [Hlen|Hlen].
  - rewrite (cacheRange_1 _ _ Hok Hlen Hin).
    unfold in_table, tableSize in Hin. rewrite Hlen in *. simpl.
    unfold bind. rewrite cacheGet_in_range by (unfold tableSize; lia).
    unfold ret. do 2 f_equal. f_equal. lia.
  - rewrite (cacheRange_2 _ _ Hok Hlen Hin).
    unfold in_table, tableSize in Hin. rewrite Hlen in *. simpl.
    unfold bind. rewrite cacheGet_in_range by (unfold tableSize; lia).
    rewrite byte_succ_to_Z by lia.
    rewrite cacheGet_in_range by (unfold tableSize; lia).
    unfold ret. do 2 f_equal. f_equal.
    rewrite lor_shiftl_8 by apply byte_to_Z_range. lia.
Qed.

Lemma cacheSet_keeps_calls i b (w : World NetState) :
  calls (snd (cacheSet i b w)) = calls w.
Proof.
  unfold cacheSet, bind, getServo, putServo, panic.
  now destruct ((0 <=? i) && (i <? tableSize)).
Qed.

(** C7: a register that is not cacheable, of width 1 or 2.  With the
    status return level at 0, [getRegister] fails with the
    status-level error and leaves the world as it was (no call on the
    network).  With the level above 0 it makes exactly one call, a
    [ReadData] of [length] bytes at the register's address. *)
Theorem getRegister_live_read_gated reg (w : World NetState) :
  Register.cacheable reg = false ->
  Register.length reg = 1 \/ Register.length reg = 2 ->
  (statusReturnLevel (servo w) = 0 ->
   getRegister net reg w = (Done (0, Some ErrStatusLevelZero), w)) /\
  (0 < statusReturnLevel (servo w) ->
   calls (snd (getRegister net reg w)) =
     calls w ++ [CallReadData (Ident (servo w)) (Register.address reg)
                              (Register.length reg)]).
Proof.
  intros Hc Hlen.
  assert (negb (Register.length reg =? 1) && negb (Register.length reg =? 2) = false)
    as Hw by (destruct Hlen as [-> | ->]; reflexivity).
  unfold getRegister. rewrite Hw, Hc. cbv beta iota.
  split; intros Hlvl; unfold bind at 1; unfold getServo at 1.
  - rewrite Hlvl. reflexivity.
  - assert ((statusReturnLevel (servo w) =? 0) = false) as Hnz
      by (apply Z.eqb_neq; lia).
    rewrite Hnz. unfold bind at 1. unfold netReadData.
    destruct (ReadData net (Ident (servo w)) (Register.address reg)
                (Register.length reg) (netState w)) as [[b err] ns].
    destruct err as [e|]; [reflexivity|].
    destruct b as [|b0 [|b1 [|b2 b]]]; try reflexivity.
    + unfold bind.
      match goal with |- context [cacheSet ?i ?x ?w0] =>
        pose proof (cacheSet_keeps_calls i x w0) as Hk;
        destruct (cacheSet i x w0) as [[[]|] w1] end; exact Hk.
    + unfold bind.
      match goal with |- context [cacheSet ?i ?x ?w0] =>
        pose proof (cacheSet_keeps_calls i x w0) as Hk;
        destruct (cacheSet i x w0) as [[[]|] w1] end; [|exact Hk].
      match goal with |- context [cacheSet ?i ?x w1] =>
        pose proof (cacheSet_keeps_calls i x w1) as Hk';
        destruct (cacheSet i x w1) as [[[]|] w2] end;
        simpl in *; congruence.
Qed.

(** A reply of neither one nor two bytes is turned down with the byte-count
    error, and the servo is left as it was. *)
Lemma getRegister_rejects_other_lengths reg b ns' (w : World NetState) :
  Register.cacheable reg = false ->
  Register.length reg = 1 \/ Register.length reg = 2 ->
  statusReturnLevel (servo w) <> 0 ->
  ReadData net (Ident (servo w)) (Register.address reg) (Register.length reg)
    (netState w) = ((b, None), ns') ->
  List.length b <> 1%nat -> List.length b <> 2%nat ->
  fst (getRegister net reg w) =
    Done (0, Some (ErrByteCount (Register.length reg) (Z.of_nat (List.length b)))) /\
  servo (snd (getRegister net reg w)) = servo w.
Proof.
  intros Hc Hlen Hlvl Hread H1 H2.
  assert (negb (Register.length reg =? 1) && negb (Register.length reg =? 2) = false)
    as Hw by (destruct Hlen as [-> | ->]; reflexivity).
  unfold getRegister. rewrite Hw, Hc. cbv beta iota.
  unfold bind, getServo, netReadData.
  apply Z.eqb_neq in Hlvl. rewrite Hlvl, Hread.
  destruct b as [|b0 [|b1 [|b2 b]]]; try (now elim H1); try (now elim H2);
    split; reflexivity.
Qed.

(** *** Writing a register *)

(** C8: [setRegister] turns down a value outside [min, max] of a writable
    register with a value-too-low or value-too-high error, and any write to
    a read-only register with the read-only error; in both cases the world
    is left as it was found, so no call was made on the network and the
    cache is unchanged. *)
Theorem setRegister_rejects_before_network reg value (w : World NetState) :
  (Register.access reg = rw ->
   value < Register.min reg \/ value > Register.max reg ->
   exists e,
     setRegister net reg value w = (Done (Some e), w) /\
     (e = ErrValueTooLow value (Register.min reg) \/
      e = ErrValueTooHigh value (Register.max reg))) /\
  (Register.access reg = ro ->
   setRegister net reg value w = (Done (Some ErrReadOnly), w)).
Proof.
  unfold setRegister. split.
  - intros -> Hout.
    destruct (value <? Register.min reg) eqn:Hlo; [eauto|].
    apply Z.ltb_ge in Hlo.
    assert ((value >? Register.max reg) = true) as -> by (apply Z.gtb_lt; lia).
    eauto.
  - intros ->. reflexivity.
Qed.
End RegisterAccess.

Lemma getRegister_cacheable_reads_cache_witness :
  getRegister (replyNet []) regGoalPosition movedWorld =
    (Done (564, None), movedWorld).
Proof.
  apply (getRegister_cacheable_reads_cache (replyNet []) regGoalPosition movedWorld).
  - reflexivity.
  - right. reflexivity.
  - unfold in_table. vm_compute. discriminate.
  - vm_compute. reflexivity.
Defined.

Lemma getRegister_live_read_gated_witness :
  getRegister (replyNet [x7b; x01]) regPresentPosition (freshWorld 0) =
    (Done (0, Some ErrStatusLevelZero), freshWorld 0) /\
  calls (snd (getRegister (replyNet [x7b; x01]) regPresentPosition (freshWorld 2))) =
    [CallReadData x01 x24 2].
Proof.
  split.
  - apply (proj1 (getRegister_live_read_gated (replyNet [x7b; x01])
                    regPresentPosition (freshWorld 0) eq_refl (or_intror eq_refl))).
    reflexivity.
  - apply (proj2 (getRegister_live_read_gated (replyNet [x7b; x01])
                    regPresentPosition (freshWorld 2) eq_refl (or_intror eq_refl))).
    vm_compute. reflexivity.
Defined.

Lemma setRegister_rejects_before_network_witness :
  (exists e,
     setRegister downNet regLed 5 (freshWorld 2) = (Done (Some e), freshWorld 2) /\
     (e = ErrValueTooLow 5 0 \/ e = ErrValueTooHigh 5 1)) /\
  setRegister downNet regModelNumber 7 (freshWorld 2) =
    (Done (Some ErrReadOnly), freshWorld 2).
Proof.
  split.
  - apply (proj1 (setRegister_rejects_before_network downNet regLed 5 (freshWorld 2))).
    + reflexivity.
    + right. vm_compute. reflexivity.
  - apply (proj2 (setRegister_rejects_before_network downNet regModelNumber 7
                    (freshWorld 2))).
    reflexivity.
Defined.

(** *** The cache after a write *)

Section Writes.
Context {NetState NetErr : Type}.
Variable net : Networker NetState NetErr.
Variable registers : RegName -> option Register.t.

Lemma writeData_keeps_servo params (w : World NetState) :
  exists e w1, writeData net params w = (Done e, w1) /\ servo w1 = servo w.
Proof.
  unfold writeData, bind, getServo, netWriteData, ret.
  destruct (WriteData net (Ident (servo w)) (statusReturnLevel (servo w) =? 2)
              params (netState w)) as [e ns].
  eauto.
Qed.

Lemma logMethod_keeps_servo format v (w : World NetState) :
  exists w1, logMethod net format v w = (Done tt, w1) /\ servo w1 = servo w.
Proof. unfold logMethod, bind, getServo, netLog. eauto. Qed.

Lemma cache_ok_insert s i b :
  cache_ok s -> cache_ok (withCache s (<[i := b]> (cache s))).
Proof. unfold cache_ok. simpl. now rewrite length_insert. Qed.

(** When [setRegister] returns nil, the cache holds the bytes written. *)
Lemma setRegister_done_cache reg value (w w' : World NetState) :
  cache_ok (servo w) ->
  setRegister net reg value w = (Done None, w') ->
  cacheRange (servo w') reg = encodeLE (Z.to_nat (Register.length reg)) value.
Proof.
  intros Hok. unfold setRegister.
  pose proof (byte_to_Z_range (Register.address reg)) as Ha.
  destruct (Register.access reg); [discriminate|].
  destruct (value <? Register.min reg); [discriminate|].
  destruct (value >? Register.max reg); [discriminate|].
  destruct (Register.length reg =? 1) eqn:H1;
    [|destruct (Register.length reg =? 2) eqn:H2; [|discriminate]].
  - apply Z.eqb_eq in H1. unfold bind at 1.
    destruct (writeData_keeps_servo [Register.address reg; low value] w)
      as (e & w1 & -> & Hs).
    unfold bind.
    destruct (Z_lt_dec (byte_to_Z (Register.address reg)) tableSize) as [Hlt|Hge];
      [|rewrite cacheSet_outside by lia; discriminate].
    rewrite cacheSet_in_range by lia. unfold ret. intros [= <-]. simpl servo.
    rewrite Hs. unfold cache_ok, tableSize in *.
    rewrite cacheRange_1;
      [| now apply cache_ok_insert | exact H1 | unfold in_table, tableSize; lia].
    simpl cache. rewrite list_lookup_insert_eq by lia. rewrite H1. reflexivity.
  - apply Z.eqb_eq in H2. unfold bind at 1.
    destruct (writeData_keeps_servo [Register.address reg; low value; high value] w)
      as (e & w1 & -> & Hs).
    unfold bind.
    destruct (Z_lt_dec (byte_to_Z (Register.address reg)) tableSize) as [Hlt|Hge];
      [|rewrite cacheSet_outside by lia; discriminate].
    rewrite cacheSet_in_range by lia. unfold tableSize in Hlt.
    rewrite byte_succ_to_Z by lia.
    destruct (Z_lt_dec (byte_to_Z (Register.address reg) + 1) tableSize) as [Hlt'|Hge];
      [|rewrite cacheSet_outside by lia; discriminate].
    rewrite cacheSet_in_range by lia. unfold ret. intros [= <-]. simpl servo.
    rewrite Hs. unfold cache_ok, tableSize in *.
    rewrite cacheRange_2;
      [| unfold cache_ok; simpl; rewrite !length_insert; exact Hok
       | exact H2 | unfold in_table, tableSize; lia].
    simpl cache.
    rewrite list_lookup_insert_eq by (rewrite length_insert; lia).
    rewrite list_lookup_insert_ne by lia.
    rewrite list_lookup_insert_eq by lia.
    rewrite H2. reflexivity.
Qed.

(** A write that passes the local checks returns nil whatever the network
    answered: the result of [writeData] is not looked at. *)
Lemma setRegister_nil_whatever_network reg value (w : World NetState) :
  Register.access reg = rw ->
  Register.min reg <= value <= Register.max reg ->
  Register.length reg = 1 \/ Register.length reg = 2 ->
  in_table reg ->
  fst (setRegister net reg value w) = Done None.
Proof.
  intros Hrw Hrange Hlen Hin. unfold setRegister, in_table, tableSize in *.
  pose proof (byte_to_Z_range (Register.address reg)) as Ha.
  rewrite Hrw.
  assert ((value <? Register.min reg) = false) as -> by (apply Z.ltb_ge; lia).
  assert ((value >? Register.max reg) = false) as ->.
  { destruct (value >? Register.max reg) eqn:E; [apply Z.gtb_lt in E; lia | reflexivity]. }
  destruct Hlen as [Hlen|Hlen]; rewrite Hlen in *; cbn [Z.eqb Pos.eqb].
  - unfold bind at 1.
    destruct (writeData_keeps_servo [Register.address reg; low value] w)
      as (e & w1 & -> & _).
    unfold bind. rewrite cacheSet_in_range by (unfold tableSize; lia).
    reflexivity.
  - unfold bind at 1.
    destruct (writeData_keeps_servo [Register.address reg; low value; high value] w)
      as (e & w1 & -> & _).
    unfold bind. rewrite cacheSet_in_range by (unfold tableSize; lia).
    rewrite byte_succ_to_Z by lia.
    rewrite cacheSet_in_range by (unfold tableSize; lia).
    reflexivity.
Qed.

Lemma runWrite_done_cache op reg (w w' : World NetState) :
  cache_ok (servo w) ->
  registers (writeName op) = Some reg ->
  runWrite net registers op w = (Done None, w') ->
  cacheRange (servo w') reg =
    encodeLE (Z.to_nat (Register.length reg)) (writeValue op).
Proof.
  intros Hok Hreg.
  destruct op as [state|state|pos|speed|isLocked]; simpl in Hreg |- *.
  - unfold SetTorqueEnable. unfold bind at 1.
    destruct (logMethod_keeps_servo "SetTorqueEnable(%t)" [LBool state] w)
      as (w1 & -> & Hs).
    unfold bind, deref. rewrite Hreg. unfold ret at 1.
    apply setRegister_done_cache. now rewrite Hs.
  - unfold SetLED, bind, deref. rewrite Hreg. unfold ret at 1.
    now apply setRegister_done_cache.
  - unfold SetGoalPosition, bind, deref. rewrite Hreg. unfold ret at 1.
    destruct ((pos <? Register.min reg) || (pos >? Register.max reg));
      [discriminate|].
    now apply setRegister_done_cache.
  - unfold SetMovingSpeed.
    destruct ((speed <? 0) || (speed >? maxSpeed)); [discriminate|].
    unfold bind, deref. rewrite Hreg. unfold ret at 1.
    now apply setRegister_done_cache.
  - unfold SetLock.
    destruct ((isLocked >? 1) || (isLocked <? 0)); [discriminate|].
    unfold bind at 1. unfold deref. rewrite Hreg. unfold ret at 1.
    unfold bind at 1.
    destruct (isLocked =? 0).
    + unfold bind at 1.
      destruct (Z_lt_dec (byte_to_Z (Register.address reg)) tableSize) as [Hlt|Hge].
      * rewrite cacheGet_in_range
          by (pose proof (byte_to_Z_range (Register.address reg)); lia).
        unfold ret at 1.
        destruct (byte_to_Z _ =? 1); [discriminate|].
        now apply setRegister_done_cache.
      * rewrite cacheGet_outside by lia. discriminate.
    + unfold ret at 1. now apply setRegister_done_cache.
Qed.

Lemma SetTorqueLimit_keeps_cache limit (w : World NetState) :
  cache (servo (snd (SetTorqueLimit net limit w))) = cache (servo w).
Proof.
  unfold SetTorqueLimit. unfold bind at 1.
  destruct (logMethod_keeps_servo "SetTorqueLimit(%d)" [LInt limit] w)
    as (w1 & -> & Hs).
  destruct ((limit <? 0) || (limit >? 1023)); [simpl; now rewrite Hs|].
  destruct (writeData_keeps_servo [addrTorqueLimit; low limit; high limit] w1)
    as (e & w2 & -> & Hs2).
  simpl. now rewrite Hs2, Hs.
Qed.

(** C2, as amended: after a call of [setRegister] that returns nil, and so
    after each setter that ends in such a call ([SetTorqueEnable], [SetLED],
    [SetGoalPosition], [SetMovingSpeed], [SetLock]) and returns nil, the
    cache bytes of the register are the little-endian bytes of the value
    written.  [SetTorqueLimit] is not one of them: it hands its bytes to
    the network itself and never touches the cache. *)
Theorem write_returning_nil_patches_cache :
  (forall reg value (w w' : World NetState),
      cache_ok (servo w) ->
      setRegister net reg value w = (Done None, w') ->
      cacheRange (servo w') reg =
        encodeLE (Z.to_nat (Register.length reg)) value) /\
  (forall op reg (w w' : World NetState),
      cache_ok (servo w) ->
      registers (writeName op) = Some reg ->
      runWrite net registers op w = (Done None, w') ->
      cacheRange (servo w') reg =
        encodeLE (Z.to_nat (Register.length reg)) (writeValue op)) /\
  (forall limit (w : World NetState),
      cache (servo (snd (SetTorqueLimit net limit w))) = cache (servo w)).
Proof.
  split; [|split].
  - intros reg value w w'. apply setRegister_done_cache.
  - intros op reg w w'. apply runWrite_done_cache.
  - apply SetTorqueLimit_keeps_cache.
Qed.
End Writes.

Lemma write_returning_nil_patches_cache_witness :
  cacheRange
    (servo (snd (SetGoalPosition (replyNet []) demoRegisters 512 (freshWorld 2))))
    regGoalPosition = [x00; x02].
Proof.
  apply (proj1 (proj2 (write_returning_nil_patches_cache (replyNet []) demoRegisters))
           (WGoalPosition 512) regGoalPosition (freshWorld 2)).
  - vm_compute. reflexivity.
  - reflexivity.
  - vm_compute. reflexivity.
Defined.

(** C2 as stated fails for [SetTorqueLimit]: the call returns nil, and the
    two cache bytes of the torque limit at 0x22 still read zero, where the
    bytes of 512 are 0x00 0x02. *)
Lemma SetTorqueLimit_cache_not_patched :
  fst (SetTorqueLimit (replyNet []) 512 (freshWorld 2)) = Done None /\
  cacheRange (servo (snd (SetTorqueLimit (replyNet []) 512 (freshWorld 2))))
    regTorqueLimit = [x00; x00] /\
  encodeLE 2 512 = [x00; x02].
Proof. vm_compute. repeat split. Qed.

(** C1 fails on a network that is down: [setRegister] drops the error that
    [writeData] returns, hands nil to its caller, and patches the cache with
    the byte that never reached the servo. *)
Theorem setRegister_drops_write_error :
  fst (setRegister downNet regLed 1 (freshWorld 2)) = Done None /\
  calls (snd (setRegister downNet regLed 1 (freshWorld 2))) =
    [CallWriteData x01 true [x19; x01]] /\
  fst (WriteData downNet x01 true [x19; x01] tt) = Some "timeout"%string /\
  cacheRange (servo (freshWorld 2)) regLed = [x00] /\
  cacheRange (servo (snd (setRegister downNet regLed 1 (freshWorld 2)))) regLed =
    [x01].
Proof. vm_compute. repeat split. Qed.

(** C3 fails on a one-byte reply to a two-byte read: the switch is on the
    length of the reply alone, so [getRegister] returns that byte with a nil
    error and writes it into the cache. *)
Theorem getRegister_accepts_short_reply :
  Register.length regPresentPosition = 2 /\
  Register.cacheable regPresentPosition = false /\
  fst (getRegister (replyNet [x7b]) regPresentPosition (freshWorld 2)) =
    Done (123, None) /\
  cacheRange (servo (freshWorld 2)) regPresentPosition = [x00; x00] /\
  cacheRange
    (servo (snd (getRegister (replyNet [x7b]) regPresentPosition (freshWorld 2))))
    regPresentPosition = [x7b; x00].
Proof. vm_compute. repeat split. Qed.

(** *** The status return level *)

Section StatusReturnLevel.
Context {NetState NetErr : Type}.
Variable net : Networker NetState NetErr.

(** C6: [SetStatusReturnLevel] on a value outside 0..2 fails with the
    invalid-level error without a call that reaches the device (its one
    call on the network is the [Log] line) and leaves the servo as it was.
    On 0, 1 or 2 it makes exactly one device call, a [WriteData] of the
    level to address 0x10 whose acknowledgement flag is [value = 2]
    whatever the shadow holds; it returns what that call returned, and the
    shadow becomes [value] when the call succeeded and is unchanged when it
    failed. *)
Theorem SetStatusReturnLevel_gated value (w : World NetState) :
  let r := SetStatusReturnLevel net value w in
  let logged := snd (logMethod net "SetStatusReturnLevel(%d)" [LInt value] w) in
  let err := fst (WriteData net (Ident (servo w)) (value =? 2)
                    [addrStatusReturnLevel; low value] (netState logged)) in
  (value < 0 \/ value > 2 ->
   fst r = Done (Some (ErrStatusReturnLevel value)) /\
   device_calls (calls (snd r)) = device_calls (calls w) /\
   servo (snd r) = servo w) /\
  (0 <= value <= 2 ->
   fst r = Done (wrap err) /\
   device_calls (calls (snd r)) =
     device_calls (calls w) ++
       [CallWriteData (Ident (servo w)) (value =? 2)
          [addrStatusReturnLevel; low value]] /\
   servo (snd r) =
     match err with
     | None => withLevel (servo w) value
     | Some _ => servo w
     end).
Proof.
  cbv zeta. unfold SetStatusReturnLevel, logMethod, netLog, bind, getServo.
  cbn [fst snd servo netState calls]. split.
  - intros Hout.
    assert ((value <? 0) || (value >? 2) = true) as ->.
    { apply orb_true_iff. rewrite Z.ltb_lt, Z.gtb_lt. lia. }
    unfold ret. cbn [fst snd servo calls]. repeat split.
    unfold device_calls. rewrite List.filter_app. cbn. apply app_nil_r.
  - intros Hin.
    assert ((value <? 0) || (value >? 2) = false) as ->.
    { apply orb_false_iff. rewrite Z.ltb_ge. split; [lia|].
      destruct (value >? 2) eqn:E; [apply Z.gtb_lt in E; lia | reflexivity]. }
    unfold netWriteData. cbn [servo netState calls].
    destruct (WriteData net (Ident (servo w)) (value =? 2)
                [addrStatusReturnLevel; low value] _) as [[e|] ns];
      cbn [fst snd servo calls wrap]; unfold ret, putServo;
      cbn [fst snd servo calls];
      unfold device_calls; rewrite !List.filter_app; cbn;
      rewrite app_nil_r; repeat split.
Qed.
End StatusReturnLevel.

Lemma SetStatusReturnLevel_gated_witness :
  (fst (SetStatusReturnLevel downNet 3 (freshWorld 2)) =
     Done (Some (ErrStatusReturnLevel 3)) /\
   device_calls (calls (snd (SetStatusReturnLevel downNet 3 (freshWorld 2)))) = [] /\
   servo (snd (SetStatusReturnLevel downNet 3 (freshWorld 2))) = freshServo 2) /\
  (fst (SetStatusReturnLevel (replyNet []) 1 (freshWorld 2)) = Done None /\
   device_calls (calls (snd (SetStatusReturnLevel (replyNet []) 1 (freshWorld 2)))) =
     [CallWriteData x01 false [x10; x01]] /\
   servo (snd (SetStatusReturnLevel (replyNet []) 1 (freshWorld 2))) =
     withLevel (freshServo 2) 1).
Proof.
  split.
  - apply (proj1 (SetStatusReturnLevel_gated downNet 3 (freshWorld 2))). lia.
  - apply (proj2 (SetStatusReturnLevel_gated (replyNet []) 1 (freshWorld 2))). lia.
Defined.

(** *** Construction *)

Section Construction.
Context {NetState NetErr : Type}.
Variable net : Networker NetState NetErr.

(** The copy loop, entered at index [i] with the first [i] bytes already
    copied, runs to the end of the table and leaves the reply in the
    cache. *)
Lemma copyTable_copies n i b (w : World NetState) :
  Z.of_nat (List.length b) = tableSize ->
  cache_ok (servo w) ->
  0 <= i -> i + Z.of_nat n = tableSize ->
  take (Z.to_nat i) (cache (servo w)) = take (Z.to_nat i) b ->
  exists w',
    copyTable n i b w = (Done tt, w') /\
    servo w' = withCache (servo w) b /\
    netState w' = netState w /\ calls w' = calls w.
Proof.
  revert i w. unfold cache_ok, tableSize.
  induction n as [|n IH]; intros i w Hb Hok Hi Hn Hpre.
  - exists w. repeat split.
    rewrite !take_ge in Hpre by lia.
    destruct w as [[id z c l] ns cs]. simpl in *. now subst.
  - cbn [copyTable].
    destruct (lookup_lt_is_Some_2 b (Z.to_nat i)) as [x Hx]; [lia|].
    rewrite Hx. unfold bind.
    rewrite cacheSet_in_range by (unfold tableSize; lia).
    destruct (IH (i + 1)
                {| servo := withCache (servo w) (<[Z.to_nat i := x]> (cache (servo w)));
                   netState := netState w; calls := calls w |})
      as (w' & -> & Hs & Hns & Hcs); try lia.
    + simpl. rewrite length_insert. exact Hok.
    + simpl. replace (Z.to_nat (i + 1)) with (S (Z.to_nat i)) by lia.
      rewrite (take_S_r b _ x Hx).
      rewrite (take_S_r _ _ x) by (apply list_lookup_insert_eq; lia).
      rewrite take_insert_ge by lia. now rewrite Hpre.
    + exists w'. repeat split; assumption.
Qed.

(** A refresh that succeeds stores the whole reply. *)
Lemma updateCache_stores_reply b ns' (w : World NetState) :
  cache_ok (servo w) ->
  ReadData net (Ident (servo w)) x00 tableSize (netState w) = ((b, None), ns') ->
  Z.of_nat (List.length b) = tableSize ->
  exists w',
    updateCache net w = (Done None, w') /\ servo w' = withCache (servo w) b.
Proof.
  intros Hok Hread Hlen.
  unfold updateCache, bind, getServo, netReadData. rewrite Hread.
  rewrite Hlen, Z.eqb_refl. cbn [negb].
  edestruct (copyTable_copies (Z.to_nat tableSize) 0 b) as (w' & -> & Hs & _);
    try eassumption; try reflexivity.
  exists w'. split; [reflexivity | exact Hs].
Qed.

(** C10: [NewServo] always returns a servo, with status return level 2 and
    zero angle 150; its result type has no error, and when the first
    refresh fails (an error from the transport, or a reply that is not 50
    bytes long) the servo it returns holds the all-zero cache. *)
Theorem NewServo_discards_refresh_error ident (ns : NetState) :
  exists s,
    fst (NewServo net ident ns) = Done s /\
    Ident s = ident /\
    statusReturnLevel s = 2 /\
    zeroAngle s = F64.of_Z 150 /\
    (refresh_failed (fst (ReadData net ident x00 tableSize ns)) ->
     cache s = replicate (Z.to_nat tableSize) x00).
Proof.
  unfold NewServo, updateCache, refresh_failed.
  set (s0 := {| Ident := ident; zeroAngle := F64.of_Z 150;
                cache := replicate (Z.to_nat tableSize) x00;
                statusReturnLevel := 2 |}).
  unfold bind at 1. unfold bind at 1. unfold getServo at 1.
  unfold bind at 1. unfold netReadData. cbn [servo netState calls Ident].
  change (Ident s0) with ident.
  destruct (ReadData net ident x00 tableSize ns) as [[b [e|]] ns'] eqn:Hread.
  - exists s0. cbn. repeat split.
  - destruct (Z.of_nat (List.length b) =? tableSize) eqn:Hlen; cbn [negb].
    + apply Z.eqb_eq in Hlen. unfold bind at 1.
      edestruct (copyTable_copies (Z.to_nat tableSize) 0 b
                   {| servo := s0; netState := ns';
                      calls := [] ++ [CallReadData ident x00 tableSize] |})
        as (w' & -> & Hs & _); try reflexivity; try assumption.
      exists (servo w'). unfold ret, getServo. cbn [fst snd]. rewrite Hs.
      do 4 (split; [reflexivity|]).
      intros [Herr | Hsize]; [now elim Herr | contradiction].
    + exists s0. cbn. repeat split.
Qed.
End Construction.

Lemma NewServo_discards_refresh_error_witness :
  exists s,
    fst (NewServo downNet x07 tt) = Done s /\
    Ident s = x07 /\
    statusReturnLevel s = 2 /\
    zeroAngle s = F64.of_Z 150 /\
    cache s = replicate (Z.to_nat tableSize) x00.
Proof.
  destruct (NewServo_discards_refresh_error downNet x07 tt)
    as (s & Hs & Hid & Hlvl & Hz & Hc).
  exists s. repeat (split; [assumption|]).
  apply Hc. left. discriminate.
Defined.

(** ** Further properties of the code *)

(** *** Refreshing the cache *)

Section Refresh.
Context {NetState NetErr : Type}.
Variable net : Networker NetState NetErr.

Lemma World_eta (w : World NetState) :
  w = {| servo := servo w; netState := netState w; calls := calls w |}.
Proof. now destruct w. Qed.

Lemma updateCache_ok_world b ns' (w : World NetState) :
  cache_ok (servo w) ->
  ReadData net (Ident (servo w)) x00 tableSize (netState w) = ((b, None), ns') ->
  Z.of_nat (List.length b) = tableSize ->
  updateCache net w =
    (Done None,
     {| servo := withCache (servo w) b; netState := ns';
        calls := calls w ++ [CallReadData (Ident (servo w)) x00 tableSize] |}).
Proof.
  intros Hok Hread Hlen.
  unfold updateCache, bind, getServo, netReadData. rewrite Hread.
  rewrite Hlen, Z.eqb_refl. cbn [negb].
  destruct (copyTable_copies (Z.to_nat tableSize) 0 b
              {| servo := servo w; netState := ns';
                 calls := calls w ++ [CallReadData (Ident (servo w)) x00 tableSize] |})
    as (w' & -> & Hs & Hns & Hcs); try assumption; try reflexivity.
  unfold ret. rewrite (World_eta w'), Hs, Hns, Hcs. reflexivity.
Qed.

(** X1: when the transport answers the bulk read with exactly 50 bytes and
    no error, [updateCache] returns nil after that one [ReadData] of the
    whole table, and the cache is the reply, byte for byte; identity, zero
    angle and status return level are untouched. *)
Theorem updateCache_success b ns' (w : World NetState) :
  cache_ok (servo w) ->
  ReadData net (Ident (servo w)) x00 tableSize (netState w) = ((b, None), ns') ->
  Z.of_nat (List.length b) = tableSize ->
  updateCache net w =
    (Done None,
     {| servo := withCache (servo w) b; netState := ns';
        calls := calls w ++ [CallReadData (Ident (servo w)) x00 tableSize] |}).
Proof. apply updateCache_ok_world. Qed.

(** X2: when the bulk read fails, or succeeds with a reply that is not 50
    bytes long, [updateCache] returns an error (the transport's own, or the
    table-size error carrying the length received), has made that one
    [ReadData] call, and leaves the servo, cache included, exactly as it
    was. *)
Theorem updateCache_failure (w : World NetState) :
  let r := fst (ReadData net (Ident (servo w)) x00 tableSize (netState w)) in
  refresh_failed r ->
  fst (updateCache net w) =
    Done (Some (match snd r with
                | Some e => NetError e
                | None => ErrControlTableSize (Z.of_nat (List.length (fst r)))
                end)) /\
  servo (snd (updateCache net w)) = servo w /\
  calls (snd (updateCache net w)) =
    calls w ++ [CallReadData (Ident (servo w)) x00 tableSize].
Proof.
  cbv zeta. unfold refresh_failed, updateCache, bind, getServo, netReadData.
  destruct (ReadData net (Ident (servo w)) x00 tableSize (netState w))
    as [[b [e|]] ns']; cbn [fst snd].
  - intros _. repeat split.
  - intros [Herr|Hsize]; [now elim Herr|].
    apply Z.eqb_neq in Hsize. rewrite Hsize. repeat split.
Qed.

(** X3: over a transport that answers the bulk read with 50 bytes,
    [NewServo] returns a servo whose cache is that reply, with the identity
    it was given, after exactly one call on the network. *)
Theorem NewServo_populates_cache ident b ns' (ns : NetState) :
  ReadData net ident x00 tableSize ns = ((b, None), ns') ->
  Z.of_nat (List.length b) = tableSize ->
  NewServo net ident ns =
    (Done {| Ident := ident; zeroAngle := F64.of_Z 150; cache := b;
             statusReturnLevel := 2 |},
     {| servo := {| Ident := ident; zeroAngle := F64.of_Z 150; cache := b;
                    statusReturnLevel := 2 |};
        netState := ns';
        calls := [CallReadData ident x00 tableSize] |}).
Proof.
  intros Hread Hlen. unfold NewServo. unfold bind at 1.
  rewrite (updateCache_ok_world b ns'); [reflexivity | | exact Hread | exact Hlen].
  unfold cache_ok. cbn [servo cache]. rewrite length_replicate. unfold tableSize. lia.
Qed.
End Refresh.

Lemma updateCache_success_witness :
  updateCache tableNet (tableWorld 2) =
    (Done None,
     {| servo := withCache (freshServo 2) sampleTable; netState := sampleTable;
        calls := [CallReadData x01 x00 50] |}).
Proof.
  apply (updateCache_success tableNet sampleTable sampleTable (tableWorld 2)).
  - vm_compute. reflexivity.
  - vm_compute. reflexivity.
  - vm_compute. reflexivity.
Defined.

Lemma updateCache_failure_witness :
  fst (updateCache (replyNet [x01; x02]) (freshWorld 2)) =
    Done (Some (ErrControlTableSize 2)) /\
  servo (snd (updateCache (replyNet [x01; x02]) (freshWorld 2))) = freshServo 2 /\
  calls (snd (updateCache (replyNet [x01; x02]) (freshWorld 2))) =
    [CallReadData x01 x00 50].
Proof.
  apply (updateCache_failure (replyNet [x01; x02]) (freshWorld 2)).
  right. vm_compute. discriminate.
Defined.

Lemma NewServo_populates_cache_witness :
  NewServo tableNet x01 sampleTable =
    (Done {| Ident := x01; zeroAngle := F64.of_Z 150; cache := sampleTable;
             statusReturnLevel := 2 |},
     {| servo := {| Ident := x01; zeroAngle := F64.of_Z 150; cache := sampleTable;
                    statusReturnLevel := 2 |};
        netState := sampleTable;
        calls := [CallReadData x01 x00 50] |}).
Proof.
  apply (NewServo_populates_cache tableNet x01 sampleTable sampleTable sampleTable).
  - vm_compute. reflexivity.
  - vm_compute. reflexivity.
Defined.

(** *** What a write does to the world *)

Section WriteEffects.
Context {NetState NetErr : Type}.
Variable net : Networker NetState NetErr.

Lemma writeData_world params (w : World NetState) :
  let r := WriteData net (Ident (servo w)) (statusReturnLevel (servo w) =? 2)
             params (netState w) in
  writeData net params w =
    (Done (wrap (fst r)),
     {| servo := servo w; netState := snd r;
        calls := calls w ++
          [CallWriteData (Ident (servo w)) (statusReturnLevel (servo w) =? 2) params] |}).
Proof.
  cbv zeta. unfold writeData, bind, getServo, netWriteData, ret.
  now destruct (WriteData net (Ident (servo w)) (statusReturnLevel (servo w) =? 2)
                  params (netState w)).
Qed.

Lemma logMethod_world format v (w : World NetState) :
  exists msg,
    logMethod net format v w =
      (Done tt, {| servo := servo w; netState := Log net msg v (netState w);
                   calls := calls w ++ [CallLog msg v] |}).
Proof. unfold logMethod, bind, getServo, netLog. eauto. Qed.

(** The world after a write that passes the local checks. *)
Lemma setRegister_accepted reg value (w : World NetState) :
  Register.access reg = rw ->
  Register.min reg <= value <= Register.max reg ->
  Register.length reg = 1 \/ Register.length reg = 2 ->
  in_table reg ->
  let a := Z.to_nat (byte_to_Z (Register.address reg)) in
  let params := Register.address reg :: encodeLE (Z.to_nat (Register.length reg)) value in
  let ack := statusReturnLevel (servo w) =? 2 in
  setRegister net reg value w =
    (Done None,
     {| servo :=
          withCache (servo w)
            (if Register.length reg =? 1
             then <[a := low value]> (cache (servo w))
             else <[S a := high value]> (<[a := low value]> (cache (servo w))));
        netState := snd (WriteData net (Ident (servo w)) ack params (netState w));
        calls := calls w ++ [CallWriteData (Ident (servo w)) ack params] |}).
Proof.
  intros Hrw Hrange Hlen Hin. cbv zeta.
  unfold setRegister, in_table, tableSize in *.
  pose proof (byte_to_Z_range (Register.address reg)) as Ha.
  rewrite Hrw.
  assert ((value <? Register.min reg) = false) as -> by (apply Z.ltb_ge; lia).
  assert ((value >? Register.max reg) = false) as ->.
  { destruct (value >? Register.max reg) eqn:E; [apply Z.gtb_lt in E; lia | reflexivity]. }
  destruct Hlen as [Hlen|Hlen]; rewrite Hlen in *.
  - change (encodeLE (Z.to_nat 1) value) with [low value].
    change (1 =? 1) with true. cbv iota.
    unfold bind at 1. rewrite writeData_world.
    unfold bind. rewrite cacheSet_in_range by (unfold tableSize; cbn [servo]; lia).
    reflexivity.
  - change (encodeLE (Z.to_nat 2) value) with [low value; high value].
    change (2 =? 1) with false. change (2 =? 2) with true. cbv iota.
    unfold bind at 1. rewrite writeData_world.
    unfold bind. rewrite cacheSet_in_range by (unfold tableSize; cbn [servo]; lia).
    rewrite byte_succ_to_Z by lia.
    rewrite cacheSet_in_range by (unfold tableSize; cbn [servo]; lia).
    cbn [servo netState calls cache withCache Ident zeroAngle statusReturnLevel snd].
    replace (Z.to_nat (byte_to_Z (Register.address reg) + 1))
      with (S (Z.to_nat (byte_to_Z (Register.address reg)))) by lia.
    reflexivity.
Qed.
End WriteEffects.

Section WriteOutcomes.
Context {NetState NetErr : Type}.
Variable net : Networker NetState NetErr.
Variable registers : RegName -> option Register.t.

(** [setRegister] returns nil only past every local check, on a register
    that lies inside the table. *)
Lemma setRegister_done_inv reg value (w w' : World NetState) :
  setRegister net reg value w = (Done None, w') ->
  Register.access reg = rw /\
  Register.min reg <= value <= Register.max reg /\
  (Register.length reg = 1 \/ Register.length reg = 2) /\
  in_table reg.
Proof.
  unfold setRegister, in_table.
  pose proof (byte_to_Z_range (Register.address reg)) as Ha.
  destruct (Register.access reg); [discriminate|].
  destruct (value <? Register.min reg) eqn:Hlo; [discriminate|].
  destruct (value >? Register.max reg) eqn:Hhi; [discriminate|].
  apply Z.ltb_ge in Hlo.
  assert (value <= Register.max reg) as Hhi'.
  { destruct (Z_le_gt_dec value (Register.max reg)) as [|Hgt]; [assumption|].
    apply Z.gt_lt, Z.gtb_lt in Hgt. congruence. }
  destruct (Register.length reg =? 1) eqn:H1;
    [|destruct (Register.length reg =? 2) eqn:H2; [|discriminate]].
  - apply Z.eqb_eq in H1. rewrite H1.
    unfold bind at 1. rewrite writeData_world. unfold bind.
    destruct (Z_lt_dec (byte_to_Z (Register.address reg)) tableSize) as [Hlt|Hge];
      [|rewrite cacheSet_outside by (cbn [servo]; lia); discriminate].
    intros _. repeat split; auto; lia.
  - apply Z.eqb_eq in H2. rewrite H2.
    unfold bind at 1. rewrite writeData_world. unfold bind.
    destruct (Z_lt_dec (byte_to_Z (Register.address reg)) tableSize) as [Hlt|Hge];
      [|rewrite cacheSet_outside by (cbn [servo]; lia); discriminate].
    rewrite cacheSet_in_range by lia. unfold tableSize in Hlt.
    rewrite byte_succ_to_Z by lia.
    destruct (Z_lt_dec (byte_to_Z (Register.address reg) + 1) tableSize) as [Hlt'|Hge];
      [|rewrite cacheSet_outside by lia; discriminate].
    intros _. repeat split; auto; lia.
Qed.

(** [setRegister] returns an error only from its local checks, before
    anything was touched. *)
Lemma setRegister_error_world reg value e (w w' : World NetState) :
  setRegister net reg value w = (Done (Some e), w') -> w' = w.
Proof.
  unfold setRegister.
  destruct (Register.access reg); [now intros [= _ <-]|].
  destruct (value <? Register.min reg); [now intros [= _ <-]|].
  destruct (value >? Register.max reg); [now intros [= _ <-]|].
  destruct (Register.length reg =? 1);
    [|destruct (Register.length reg =? 2); [|now intros [= _ <-]]].
  - unfold bind at 1. rewrite writeData_world. unfold bind.
    match goal with |- context [cacheSet ?i ?x ?w0] =>
      destruct (cacheSet i x w0) as [[[]|] w1] end; discriminate.
  - unfold bind at 1. rewrite writeData_world. unfold bind.
    match goal with |- context [cacheSet ?i ?x ?w0] =>
      destruct (cacheSet i x w0) as [[[]|] w1] end; [|discriminate].
    match goal with |- context [cacheSet ?i ?x w1] =>
      destruct (cacheSet i x w1) as [[[]|] w2] end; discriminate.
Qed.

(** A named write that returns is a [setRegister] on its register with its
    value, run after at most a [Log] line, or a local rejection. *)
Lemma runWrite_inv op reg r (w w' : World NetState) :
  registers (writeName op) = Some reg ->
  runWrite net registers op w = (Done r, w') ->
  (exists w1,
     servo w1 = servo w /\ device_calls (calls w1) = device_calls (calls w) /\
     setRegister net reg (writeValue op) w1 = (Done r, w')) \/
  (r <> None /\ w' = w).
Proof.
  intros Hreg.
  destruct op as [state|state|pos|speed|isLocked]; simpl in Hreg |- *.
  - unfold SetTorqueEnable. unfold bind at 1.
    destruct (logMethod_world net "SetTorqueEnable(%t)" [LBool state] w) as (msg & ->).
    unfold bind, deref. rewrite Hreg. unfold ret at 1. intros H. left.
    eexists. split; [|split; [|exact H]]; [reflexivity|].
    cbn [calls]. unfold device_calls. rewrite List.filter_app. apply app_nil_r.
  - unfold SetLED, bind, deref. rewrite Hreg. unfold ret at 1. intros H. left.
    exists w. auto.
  - unfold SetGoalPosition, bind, deref. rewrite Hreg. unfold ret at 1.
    destruct ((pos <? Register.min reg) || (pos >? Register.max reg)).
    + intros [= <- <-]. right. split; [discriminate | reflexivity].
    + intros H. left. exists w. auto.
  - unfold SetMovingSpeed.
    destruct ((speed <? 0) || (speed >? maxSpeed)).
    + intros [= <- <-]. right. split; [discriminate | reflexivity].
    + unfold bind, deref. rewrite Hreg. unfold ret at 1.
      intros H. left. exists w. auto.
  - unfold SetLock.
    destruct ((isLocked >? 1) || (isLocked <? 0)).
    + intros [= <- <-]. right. split; [discriminate | reflexivity].
    + unfold bind at 1. unfold deref. rewrite Hreg. unfold ret at 1.
      unfold bind at 1.
      destruct (isLocked =? 0).
      * unfold bind at 1.
        destruct (Z_lt_dec (byte_to_Z (Register.address reg)) tableSize) as [Hlt|Hge].
        -- rewrite cacheGet_in_range
             by (pose proof (byte_to_Z_range (Register.address reg)); lia).
           unfold ret at 1.
           destruct (byte_to_Z _ =? 1).
           ++ intros [= <- <-]. right. split; [discriminate | reflexivity].
           ++ intros H. left. exists w. auto.
        -- rewrite cacheGet_outside by lia. discriminate.
      * unfold ret at 1. intros H. left. exists w. auto.
Qed.
End WriteOutcomes.

Section WriteProperties.
Context {NetState NetErr : Type}.
Variable net : Networker NetState NetErr.

(** A cacheable register inside the table is read from the cache, and the
    world is left alone. *)
Lemma getRegister_cached_value reg (w : World NetState) :
  Register.cacheable reg = true ->
  Register.length reg = 1 \/ Register.length reg = 2 ->
  in_table reg ->
  cache_ok (servo w) ->
  getRegister net reg w = (Done (decodeLE (cacheRange (servo w) reg), None), w).
Proof.
  intros Hc Hlen Hin Hok.
  pose proof (byte_to_Z_range (Register.address reg)) as Ha.
  unfold getRegister. rewrite Hc.
  destruct Hlen as [Hlen|Hlen].
  - rewrite (cacheRange_1 _ _ Hok Hlen Hin).
    unfold in_table, tableSize in Hin. rewrite Hlen in *.
    change (negb (1 =? 1) && negb (1 =? 2)) with false.
    change (1 =? 2) with false. cbv iota.
    unfold bind. rewrite cacheGet_in_range by (unfold tableSize; lia).
    unfold ret, decodeLE. do 3 f_equal. lia.
  - rewrite (cacheRange_2 _ _ Hok Hlen Hin).
    unfold in_table, tableSize in Hin. rewrite Hlen in *.
    change (negb (2 =? 1) && negb (2 =? 2)) with false.
    change (2 =? 2) with true. cbv iota.
    unfold bind. rewrite cacheGet_in_range by (unfold tableSize; lia).
    rewrite byte_succ_to_Z by lia.
    rewrite cacheGet_in_range by (unfold tableSize; lia).
    unfold ret, decodeLE. do 3 f_equal.
    rewrite lor_shiftl_8 by apply byte_to_Z_range. lia.
Qed.

(** X4: a write that passes the local checks (writable register of width 1
    or 2 inside the table, value within [min, max]) returns nil after exactly
    one [WriteData] call: under the servo's identity, with the address
    followed by the value's little-endian bytes, and asking for an
    acknowledgement exactly when the status return level is 2. *)
Theorem setRegister_one_write reg value (w : World NetState) :
  Register.access reg = rw ->
  Register.min reg <= value <= Register.max reg ->
  Register.length reg = 1 \/ Register.length reg = 2 ->
  in_table reg ->
  fst (setRegister net reg value w) = Done None /\
  calls (snd (setRegister net reg value w)) =
    calls w ++
      [CallWriteData (Ident (servo w)) (statusReturnLevel (servo w) =? 2)
         (Register.address reg :: encodeLE (Z.to_nat (Register.length reg)) value)].
Proof.
  intros Hrw Hrange Hlen Hin.
  rewrite (setRegister_accepted net reg value w Hrw Hrange Hlen Hin).
  split; reflexivity.
Qed.

(** X5: such a write changes nothing of the servo but the register's own
    cache bytes: identity, zero angle and status return level are as before,
    the cache keeps its size, and every byte outside the register's address
    range is as before. *)
Theorem setRegister_frame reg value (w : World NetState) :
  Register.access reg = rw ->
  Register.min reg <= value <= Register.max reg ->
  Register.length reg = 1 \/ Register.length reg = 2 ->
  in_table reg ->
  let s' := servo (snd (setRegister net reg value w)) in
  Ident s' = Ident (servo w) /\
  zeroAngle s' = zeroAngle (servo w) /\
  statusReturnLevel s' = statusReturnLevel (servo w) /\
  List.length (cache s') = List.length (cache (servo w)) /\
  forall j : nat,
    Z.of_nat j < byte_to_Z (Register.address reg) \/
    byte_to_Z (Register.address reg) + Register.length reg <= Z.of_nat j ->
    cache s' !! j = cache (servo w) !! j.
Proof.
  intros Hrw Hrange Hlen Hin. cbv zeta.
  rewrite (setRegister_accepted net reg value w Hrw Hrange Hlen Hin).
  cbn [snd servo withCache Ident zeroAngle statusReturnLevel cache].
  pose proof (byte_to_Z_range (Register.address reg)) as Ha.
  repeat (split; [reflexivity|]).
  destruct Hlen as [Hlen|Hlen]; rewrite Hlen.
  - change (1 =? 1) with true. cbv iota. split; [apply length_insert|].
    intros j Hj. apply list_lookup_insert_ne. lia.
  - change (2 =? 1) with false. cbv iota. split; [now rewrite !length_insert|].
    intros j Hj. rewrite !list_lookup_insert_ne by lia. reflexivity.
Qed.

(** X6: set, then get.  After a write of [value] to a cacheable register
    ([value] within [min, max] and small enough for the register's width),
    [getRegister] on the same register returns [value] with a nil error and
    makes no call on the network: the world after the read is the world
    after the write. *)
Theorem setRegister_then_getRegister reg value (w : World NetState) :
  Register.access reg = rw ->
  Register.cacheable reg = true ->
  Register.min reg <= value <= Register.max reg ->
  Register.length reg = 1 \/ Register.length reg = 2 ->
  0 <= value < 256 ^ Register.length reg ->
  in_table reg ->
  cache_ok (servo w) ->
  let w' := snd (setRegister net reg value w) in
  getRegister net reg w' = (Done (value, None), w').
Proof.
  intros Hrw Hc Hrange Hlen Hfit Hin Hok. cbv zeta.
  destruct (setRegister net reg value w) as [r w'] eqn:Hset.
  pose proof (setRegister_accepted net reg value w Hrw Hrange Hlen Hin) as Hacc.
  cbv zeta in Hacc. rewrite Hset in Hacc. injection Hacc as Hr Hw'.
  cbn [snd]. subst r.
  assert (cache_ok (servo w')) as Hok'.
  { rewrite Hw'. unfold cache_ok in *. cbn [servo withCache cache].
    destruct (Register.length reg =? 1); now rewrite ?length_insert. }
  rewrite (getRegister_cached_value reg w' Hc Hlen Hin Hok').
  rewrite (setRegister_done_cache net reg value w w' Hok Hset).
  destruct Hlen as [Hlen|Hlen]; rewrite Hlen in *.
  - change (Z.to_nat 1) with 1%nat.
    now rewrite (decodeLE_encodeLE_1 value) by (change (256 ^ 1) with 256 in Hfit; lia).
  - change (Z.to_nat 2) with 2%nat.
    now rewrite (decodeLE_encodeLE_2 value) by (change (256 ^ 2) with 65536 in Hfit; lia).
Qed.
End WriteProperties.

Lemma setRegister_one_write_witness :
  fst (setRegister tableNet regGoalPosition 564 (tableWorld 1)) = Done None /\
  calls (snd (setRegister tableNet regGoalPosition 564 (tableWorld 1))) =
    [CallWriteData x01 false [x1e; x34; x02]].
Proof.
  apply (setRegister_one_write tableNet regGoalPosition 564 (tableWorld 1)).
  - reflexivity.
  - vm_compute. split; discriminate.
  - right. reflexivity.
  - unfold in_table. vm_compute. discriminate.
Defined.

Lemma setRegister_frame_witness :
  Ident (servo (snd (setRegister downNet regGoalPosition 564 lockedWorld))) = x01 /\
  statusReturnLevel (servo (snd (setRegister downNet regGoalPosition 564 lockedWorld))) = 2 /\
  cache (servo (snd (setRegister downNet regGoalPosition 564 lockedWorld))) !! 47%nat =
    Some x01.
Proof.
  destruct (setRegister_frame downNet regGoalPosition 564 lockedWorld)
    as (Hid & _ & Hlvl & _ & Hframe).
  - reflexivity.
  - vm_compute. split; discriminate.
  - right. reflexivity.
  - unfold in_table. vm_compute. discriminate.
  - split; [exact Hid|]. split; [exact Hlvl|].
    rewrite (Hframe 47%nat); [reflexivity|].
    right. vm_compute. discriminate.
Defined.

Lemma setRegister_then_getRegister_witness :
  getRegister (replyNet []) regGoalPosition
    (snd (setRegister (replyNet []) regGoalPosition 564 (freshWorld 2))) =
    (Done (564, None),
     snd (setRegister (replyNet []) regGoalPosition 564 (freshWorld 2))).
Proof.
  apply (setRegister_then_getRegister (replyNet []) regGoalPosition 564 (freshWorld 2)).
  - reflexivity.
  - reflexivity.
  - vm_compute. split; discriminate.
  - right. reflexivity.
  - vm_compute. split; [discriminate | reflexivity].
  - unfold in_table. vm_compute. discriminate.
  - vm_compute. reflexivity.
Defined.

(** *** The named setters and getters *)

Section NamedOperations.
Context {NetState NetErr : Type}.
Variable net : Networker NetState NetErr.
Variable registers : RegName -> option Register.t.

Lemma setRegister_keeps_cache_ok reg value r (w w' : World NetState) :
  cache_ok (servo w) ->
  setRegister net reg value w = (Done r, w') ->
  cache_ok (servo w').
Proof.
  intros Hok Hset. destruct r as [e|].
  - now rewrite (setRegister_error_world net reg value e w w' Hset).
  - destruct (setRegister_done_inv net reg value w w' Hset) as (Hrw & Hrange & Hlen & Hin).
    pose proof (setRegister_accepted net reg value w Hrw Hrange Hlen Hin) as Hacc.
    cbv zeta in Hacc. rewrite Hset in Hacc. injection Hacc as ->.
    unfold cache_ok in *. cbn [servo withCache cache].
    destruct (Register.length reg =? 1); now rewrite ?length_insert.
Qed.

(** X7: what a named setter ([SetTorqueEnable], [SetLED], [SetGoalPosition],
    [SetMovingSpeed], [SetLock]) has done when it returns.  If it returns an
    error, nothing reached the device and the servo is unchanged.  If it
    returns nil, exactly one [WriteData] reached the device, carrying the
    register's address and the little-endian bytes of the value, with the
    acknowledgement flag of the current status return level. *)
Theorem runWrite_device_calls op reg r (w w' : World NetState) :
  registers (writeName op) = Some reg ->
  runWrite net registers op w = (Done r, w') ->
  match r with
  | Some _ =>
      servo w' = servo w /\ device_calls (calls w') = device_calls (calls w)
  | None =>
      device_calls (calls w') =
        device_calls (calls w) ++
          [CallWriteData (Ident (servo w)) (statusReturnLevel (servo w) =? 2)
             (Register.address reg ::
                encodeLE (Z.to_nat (Register.length reg)) (writeValue op))]
  end.
Proof.
  intros Hreg Hrun.
  destruct (runWrite_inv net registers op reg r w w' Hreg Hrun)
    as [(w1 & Hs & Hc & Hset) | (Hr & ->)].
  - destruct r as [e|].
    + rewrite (setRegister_error_world net reg _ e w1 w' Hset). auto.
    + destruct (setRegister_done_inv net reg _ w1 w' Hset) as (Hrw & Hrange & Hlen & Hin).
      pose proof (setRegister_accepted net reg _ w1 Hrw Hrange Hlen Hin) as Hacc.
      cbv zeta in Hacc. rewrite Hset in Hacc. injection Hacc as ->.
      cbn [calls]. unfold device_calls in *.
      rewrite List.filter_app, Hc, Hs. reflexivity.
  - destruct r; [auto | now elim Hr].
Qed.

(** X8: no named setter sends the device a value it could have known to be
    illegal: when one returns nil, its register is writable, of width 1 or
    2, inside the table, and the value lies within the register's
    [min, max]. *)
Theorem runWrite_sends_legal_values op reg (w w' : World NetState) :
  registers (writeName op) = Some reg ->
  runWrite net registers op w = (Done None, w') ->
  Register.access reg = rw /\
  Register.min reg <= writeValue op <= Register.max reg /\
  (Register.length reg = 1 \/ Register.length reg = 2) /\
  in_table reg.
Proof.
  intros Hreg Hrun.
  destruct (runWrite_inv net registers op reg None w w' Hreg Hrun)
    as [(w1 & _ & _ & Hset) | (Hr & _)]; [|now elim Hr].
  exact (setRegister_done_inv net reg _ w1 w' Hset).
Qed.

Lemma btoi_itob_btoi b : btoi (itob (btoi b)) = btoi b.
Proof. now destruct b. Qed.

(** X9: write by name, read back by name.  After a named setter returns nil
    on a cacheable register, the getter of the same register returns the
    value written ([TorqueEnable] and [LED] the boolean written) with a nil
    error and without any call on the network. *)
Theorem runWrite_then_readBack op reg (w w' : World NetState) :
  registers (writeName op) = Some reg ->
  Register.cacheable reg = true ->
  0 <= writeValue op < 256 ^ Register.length reg ->
  cache_ok (servo w) ->
  runWrite net registers op w = (Done None, w') ->
  readBack net registers op w' = (Done (writeValue op, None), w').
Proof.
  intros Hreg Hc Hfit Hok Hrun.
  assert (getRegister net reg w' = (Done (writeValue op, None), w')) as Hget.
  { destruct (runWrite_inv net registers op reg None w w' Hreg Hrun)
      as [(w1 & Hs & _ & Hset) | (Hr & _)]; [|now elim Hr].
    destruct (setRegister_done_inv net reg _ w1 w' Hset) as (_ & _ & Hlen & Hin).
    assert (cache_ok (servo w1)) as Hok1 by now rewrite Hs.
    pose proof (setRegister_keeps_cache_ok reg _ None w1 w' Hok1 Hset) as Hok'.
    rewrite (getRegister_cached_value net reg w' Hc Hlen Hin Hok').
    rewrite (runWrite_done_cache net registers op reg w w' Hok Hreg Hrun).
    destruct Hlen as [Hlen|Hlen]; rewrite Hlen in *.
    - change (Z.to_nat 1) with 1%nat.
      now rewrite decodeLE_encodeLE_1 by (change (256 ^ 1) with 256 in Hfit; lia).
    - change (Z.to_nat 2) with 2%nat.
      now rewrite decodeLE_encodeLE_2 by (change (256 ^ 2) with 65536 in Hfit; lia). }
  destruct op as [state|state|pos|speed|isLocked]; simpl in Hreg, Hget |- *.
  - unfold TorqueEnable, bind, deref. rewrite Hreg. unfold ret at 1. rewrite Hget.
    unfold ret. now rewrite btoi_itob_btoi.
  - unfold LED, bind, deref. rewrite Hreg. unfold ret at 1. rewrite Hget.
    unfold ret. now rewrite btoi_itob_btoi.
  - unfold GoalPosition, bind, deref. rewrite Hreg. exact Hget.
  - unfold MovingSpeed, bind, deref. rewrite Hreg. exact Hget.
  - unfold Lock, bind, deref. rewrite Hreg. exact Hget.
Qed.
End NamedOperations.

Lemma runWrite_device_calls_witness :
  device_calls
    (calls (snd (runWrite tableNet demoRegisters (WTorqueEnable true) (tableWorld 2)))) =
    [CallWriteData x01 true [x18; x01]] /\
  (servo (snd (runWrite tableNet demoRegisters (WGoalPosition 2000) (tableWorld 2))) =
     freshServo 2 /\
   device_calls
     (calls (snd (runWrite tableNet demoRegisters (WGoalPosition 2000) (tableWorld 2)))) =
     []).
Proof.
  split.
  - apply (runWrite_device_calls tableNet demoRegisters (WTorqueEnable true)
             regTorqueEnable None (tableWorld 2)
             (snd (runWrite tableNet demoRegisters (WTorqueEnable true) (tableWorld 2)))).
    + reflexivity.
    + vm_compute. reflexivity.
  - apply (runWrite_device_calls tableNet demoRegisters (WGoalPosition 2000)
             regGoalPosition (Some ErrGoalPositionRange) (tableWorld 2)
             (snd (runWrite tableNet demoRegisters (WGoalPosition 2000) (tableWorld 2)))).
    + reflexivity.
    + vm_compute. reflexivity.
Defined.

Lemma runWrite_sends_legal_values_witness :
  Register.access regMovingSpeed = rw /\
  Register.min regMovingSpeed <= 300 <= Register.max regMovingSpeed /\
  (Register.length regMovingSpeed = 1 \/ Register.length regMovingSpeed = 2) /\
  in_table regMovingSpeed.
Proof.
  apply (runWrite_sends_legal_values downNet demoRegisters (WMovingSpeed 300)
           regMovingSpeed (freshWorld 2)
           (snd (runWrite downNet demoRegisters (WMovingSpeed 300) (freshWorld 2)))).
  - reflexivity.
  - vm_compute. reflexivity.
Defined.

Lemma runWrite_then_readBack_witness :
  readBack (replyNet []) demoRegisters (WLED true)
    (snd (runWrite (replyNet []) demoRegisters (WLED true) (freshWorld 2))) =
    (Done (1, None),
     snd (runWrite (replyNet []) demoRegisters (WLED true) (freshWorld 2))).
Proof.
  apply (runWrite_then_readBack (replyNet []) demoRegisters (WLED true) regLed
           (freshWorld 2)).
  - reflexivity.
  - reflexivity.
  - vm_compute. split; [discriminate | reflexivity].
  - vm_compute. reflexivity.
  - vm_compute. reflexivity.
Defined.

(** *** The EEPROM lock *)

Section LockProperties.
Context {NetState NetErr : Type}.
Variable net : Networker NetState NetErr.
Variable registers : RegName -> option Register.t.

(** X10: [SetLock] turns down locally, leaving the world untouched (no call
    on the network, not even a log line): any value other than 0 and 1, with
    the lock-value error; and the value 0 while the cached lock byte reads 1,
    with the EEPROM error. *)
Theorem SetLock_rejects_locally isLocked reg (w : World NetState) :
  (isLocked < 0 \/ isLocked > 1 ->
   SetLock net registers isLocked w = (Done (Some ErrLockValue), w)) /\
  (registers lock = Some reg ->
   byte_to_Z (Register.address reg) < tableSize ->
   cache (servo w) !! Z.to_nat (byte_to_Z (Register.address reg)) = Some x01 ->
   SetLock net registers 0 w = (Done (Some ErrEEPROMLocked), w)).
Proof.
  split.
  - intros Hout. unfold SetLock.
    assert ((isLocked >? 1) || (isLocked <? 0) = true) as ->; [|reflexivity].
    apply orb_true_iff. rewrite Z.gtb_lt, Z.ltb_lt. lia.
  - intros Hreg Hlt Hbyte. unfold SetLock.
    change ((0 >? 1) || (0 <? 0)) with false. cbv iota.
    unfold bind at 1. unfold deref. rewrite Hreg. unfold ret at 1.
    change (0 =? 0) with true. cbv iota.
    unfold bind at 1. unfold bind at 1.
    rewrite cacheGet_in_range
      by (pose proof (byte_to_Z_range (Register.address reg)); lia).
    rewrite Hbyte. reflexivity.
Qed.

End LockProperties.

Lemma SetLock_rejects_locally_witness :
  SetLock downNet demoRegisters 2 (freshWorld 2) =
    (Done (Some ErrLockValue), freshWorld 2) /\
  SetLock downNet demoRegisters 0 lockedWorld =
    (Done (Some ErrEEPROMLocked), lockedWorld).
Proof.
  split.
  - apply (proj1 (SetLock_rejects_locally downNet demoRegisters 2 regLock (freshWorld 2))).
    right. reflexivity.
  - apply (proj2 (SetLock_rejects_locally downNet demoRegisters 2 regLock lockedWorld)).
    + reflexivity.
    + reflexivity.
    + reflexivity.
Defined.


(** *** The low-level setters *)

Section LowLevel.
Context {NetState NetErr : Type}.
Variable net : Networker NetState NetErr.

(** X12: [SetTorqueLimit] turns down a limit outside 0..1023 with the
    torque-limit error before anything reaches the device.  A limit inside
    it is sent in one [WriteData] to address 0x22, low byte first, with the
    acknowledgement flag of the current level, and what that call returned
    is what the caller gets: a transport error is passed on.  The servo is
    unchanged either way. *)
Theorem SetTorqueLimit_outcome limit (w : World NetState) :
  let logged := snd (logMethod net "SetTorqueLimit(%d)" [LInt limit] w) in
  let ack := statusReturnLevel (servo w) =? 2 in
  let params := [addrTorqueLimit; low limit; high limit] in
  let r := SetTorqueLimit net limit w in
  servo (snd r) = servo w /\
  (limit < 0 \/ limit > 1023 ->
   fst r = Done (Some ErrTorqueLimitRange) /\
   device_calls (calls (snd r)) = device_calls (calls w)) /\
  (0 <= limit <= 1023 ->
   fst r = Done (wrap (fst (WriteData net (Ident (servo w)) ack params
                              (netState logged)))) /\
   device_calls (calls (snd r)) =
     device_calls (calls w) ++ [CallWriteData (Ident (servo w)) ack params]).
Proof.
  cbv zeta. unfold SetTorqueLimit. unfold bind at 1 2 3 4 5.
  destruct (logMethod_world net "SetTorqueLimit(%d)" [LInt limit] w) as (msg & ->).
  cbn [snd netState].
  assert (device_calls (calls w ++ [CallLog msg [LInt limit]]) = device_calls (calls w))
    as Hlog by (unfold device_calls; rewrite List.filter_app; apply app_nil_r).
  destruct ((limit <? 0) || (limit >? 1023)) eqn:Hout.
  - cbn [fst snd ret servo calls]. split; [reflexivity|]. split.
    + intros _. split; [reflexivity | exact Hlog].
    + intros Hin. apply orb_true_iff in Hout. rewrite Z.ltb_lt, Z.gtb_lt in Hout. lia.
  - rewrite writeData_world. cbn [fst snd servo calls netState].
    split; [reflexivity|]. split.
    + intros Hbad. apply orb_false_iff in Hout as [Hlo Hhi].
      apply Z.ltb_ge in Hlo.
      destruct Hbad as [|Hgt]; [lia|].
      apply Z.gt_lt, Z.gtb_lt in Hgt. congruence.
    + intros _. split; [reflexivity|].
      unfold device_calls in *. rewrite List.filter_app, Hlog. reflexivity.
Qed.
End LowLevel.

Lemma SetTorqueLimit_outcome_witness :
  (fst (SetTorqueLimit downNet 1024 (freshWorld 2)) = Done (Some ErrTorqueLimitRange) /\
   device_calls (calls (snd (SetTorqueLimit downNet 1024 (freshWorld 2)))) = []) /\
  (fst (SetTorqueLimit downNet 512 (freshWorld 2)) =
     Done (Some (NetError "timeout"%string)) /\
   device_calls (calls (snd (SetTorqueLimit downNet 512 (freshWorld 2)))) =
     [CallWriteData x01 true [x22; x00; x02]]).
Proof.
  split.
  - apply (proj1 (proj2 (SetTorqueLimit_outcome downNet 1024 (freshWorld 2)))).
    right. reflexivity.
  - apply (proj2 (proj2 (SetTorqueLimit_outcome downNet 512 (freshWorld 2)))).
    vm_compute. split; discriminate.
Defined.

(** *** Changing the identity *)

Section Identity.
Context {NetState NetErr : Type}.
Variable net : Networker NetState NetErr.

(** X13: [SetIdent] validates the low byte of its argument only.  When that
    byte is above 252 it fails with the invalid-ID error, nothing reaches the
    device and the servo is unchanged.  Otherwise it makes one [WriteData]
    under the identity the servo has now, of the new identity to address
    0x03; the servo takes the new identity only when that call succeeded,
    and keeps the old one, returning the transport's error, when it failed.
    Cache, zero angle and status return level are never touched. *)
Theorem SetIdent_outcome ident (w : World NetState) :
  let i := low ident in
  let logged := snd (logMethod net "SetIdent(%d, %d)" [LInt ident] w) in
  let ack := statusReturnLevel (servo w) =? 2 in
  let err := fst (WriteData net (Ident (servo w)) ack [addrID; i] (netState logged)) in
  let r := SetIdent net ident w in
  (byte_to_Z i > 252 ->
   fst r = Done (Some (ErrInvalidID i)) /\
   servo (snd r) = servo w /\
   device_calls (calls (snd r)) = device_calls (calls w)) /\
  (byte_to_Z i <= 252 ->
   fst r = Done (match err with
                 | Some e => Some (IdentWriteError (NetError e))
                 | None => None
                 end) /\
   servo (snd r) = match err with
                   | Some _ => servo w
                   | None => withIdent (servo w) i
                   end /\
   device_calls (calls (snd r)) =
     device_calls (calls w) ++ [CallWriteData (Ident (servo w)) ack [addrID; i]]).
Proof.
  cbv zeta. pose proof (byte_to_Z_range (low ident)) as Hi.
  unfold SetIdent, bind.
  destruct (logMethod_world net "SetIdent(%d, %d)" [LInt ident] w) as (msg & ->).
  cbn [snd netState].
  assert (device_calls (calls w ++ [CallLog msg [LInt ident]]) = device_calls (calls w))
    as Hlog by (unfold device_calls; rewrite List.filter_app; apply app_nil_r).
  assert ((byte_to_Z (low ident) <? 0) = false) as -> by (apply Z.ltb_ge; lia).
  cbn [orb]. split.
  - intros Hbig.
    assert ((byte_to_Z (low ident) >? 252) = true) as -> by (apply Z.gtb_lt; lia).
    cbn [fst snd ret servo calls]. auto.
  - intros Hsmall.
    assert ((byte_to_Z (low ident) >? 252) = false) as ->.
    { destruct (byte_to_Z (low ident) >? 252) eqn:E;
        [apply Z.gtb_lt in E; lia | reflexivity]. }
    rewrite writeData_world. cbn [servo netState calls].
    destruct (WriteData net (Ident (servo w)) (statusReturnLevel (servo w) =? 2)
                [addrID; low ident] (Log net msg [LInt ident] (netState w)))
      as [[e|] ns]; cbn [fst snd wrap]; unfold ret, getServo, putServo;
      cbn [fst snd servo calls];
      (split; [reflexivity|]); (split; [reflexivity|]);
      unfold device_calls in *; rewrite List.filter_app, Hlog; reflexivity.
Qed.
End Identity.

Lemma SetIdent_outcome_witness :
  (fst (SetIdent tableNet 253 (tableWorld 2)) = Done (Some (ErrInvalidID xfd)) /\
   servo (snd (SetIdent tableNet 253 (tableWorld 2))) = freshServo 2 /\
   device_calls (calls (snd (SetIdent tableNet 253 (tableWorld 2)))) = []) /\
  (fst (SetIdent tableNet 261 (tableWorld 2)) = Done None /\
   servo (snd (SetIdent tableNet 261 (tableWorld 2))) = withIdent (freshServo 2) x05 /\
   device_calls (calls (snd (SetIdent tableNet 261 (tableWorld 2)))) =
     [CallWriteData x01 true [x03; x05]]).
Proof.
  split.
  - apply (proj1 (SetIdent_outcome tableNet 253 (tableWorld 2))).
    vm_compute. reflexivity.
  - apply (proj2 (SetIdent_outcome tableNet 261 (tableWorld 2))).
    vm_compute. discriminate.
Defined.

(** *** Live reads *)

Section LiveReads.
Context {NetState NetErr : Type}.
Variable net : Networker NetState NetErr.

Lemma getRegister_live_step reg (w : World NetState) :
  Register.cacheable reg = false ->
  Register.length reg = 1 \/ Register.length reg = 2 ->
  statusReturnLevel (servo w) <> 0 ->
  getRegister net reg w =
    let r := ReadData net (Ident (servo w)) (Register.address reg)
               (Register.length reg) (netState w) in
    let w1 := {| servo := servo w; netState := snd r;
                 calls := calls w ++ [CallReadData (Ident (servo w))
                                        (Register.address reg) (Register.length reg)] |} in
    match snd (fst r) with
    | Some e => (Done (0, Some (NetError e)), w1)
    | None =>
        match fst (fst r) with
        | [b0] =>
            bind (cacheSet (byte_to_Z (Register.address reg)) b0)
                 (fun _ => ret (byte_to_Z b0, None)) w1
        | [b0; b1] =>
            bind (cacheSet (byte_to_Z (Register.address reg)) b0)
                 (fun _ =>
                    bind (cacheSet (byte_to_Z (byte_succ (Register.address reg))) b1)
                         (fun _ => ret (Z.lor (byte_to_Z b0) (Z.shiftl (byte_to_Z b1) 8),
                                        None))) w1
        | b => (Done (0, Some (ErrByteCount (Register.length reg)
                                 (Z.of_nat (List.length b)))), w1)
        end
    end.
Proof.
  intros Hc Hlen Hlvl.
  assert (negb (Register.length reg =? 1) && negb (Register.length reg =? 2) = false)
    as Hw by (destruct Hlen as [-> | ->]; reflexivity).
  unfold getRegister. rewrite Hw, Hc. cbv beta iota zeta.
  unfold bind at 1. unfold getServo at 1.
  apply Z.eqb_neq in Hlvl. rewrite Hlvl.
  unfold bind at 1. unfold netReadData.
  destruct (ReadData net (Ident (servo w)) (Register.address reg)
              (Register.length reg) (netState w)) as [[b [e|]] ns]; cbn [fst snd].
  - reflexivity.
  - destruct b as [|b0 [|b1 [|b2 b]]]; reflexivity.
Qed.

(** X14: a live read answered with exactly the register's width.  For a
    register that is not cacheable, inside the table, with the status return
    level not 0, [getRegister] returns the little-endian value of the reply
    with a nil error, the register's cache bytes become the reply, and the
    rest of the servo (other cache bytes, identity, level) is as before. *)
Theorem getRegister_live_success reg b ns' (w : World NetState) :
  Register.cacheable reg = false ->
  Register.length reg = 1 \/ Register.length reg = 2 ->
  in_table reg ->
  cache_ok (servo w) ->
  statusReturnLevel (servo w) <> 0 ->
  ReadData net (Ident (servo w)) (Register.address reg) (Register.length reg)
    (netState w) = ((b, None), ns') ->
  Z.of_nat (List.length b) = Register.length reg ->
  let r := getRegister net reg w in
  fst r = Done (decodeLE b, None) /\
  cacheRange (servo (snd r)) reg = b /\
  Ident (servo (snd r)) = Ident (servo w) /\
  statusReturnLevel (servo (snd r)) = statusReturnLevel (servo w) /\
  forall j : nat,
    Z.of_nat j < byte_to_Z (Register.address reg) \/
    byte_to_Z (Register.address reg) + Register.length reg <= Z.of_nat j ->
    cache (servo (snd r)) !! j = cache (servo w) !! j.
Proof.
  intros Hc Hlen Hin Hok Hlvl Hread Hb. cbv zeta.
  rewrite (getRegister_live_step reg w Hc Hlen Hlvl). cbv zeta.
  rewrite Hread. cbn [fst snd].
  pose proof (byte_to_Z_range (Register.address reg)) as Ha.
  unfold in_table, tableSize in Hin. unfold cache_ok, tableSize in Hok.
  destruct Hlen as [Hlen|Hlen]; rewrite Hlen in *.
  - destruct b as [|b0 [|b1 b]]; cbn [List.length] in Hb; try lia.
    unfold bind. rewrite cacheSet_in_range by (unfold tableSize; cbn [servo]; lia).
    cbn [fst snd ret servo withCache cache Ident statusReturnLevel].
    split; [cbn [decodeLE]; do 2 f_equal; lia|].
    split; [|split; [reflexivity|split; [reflexivity|]]].
    + rewrite cacheRange_1;
        [| unfold cache_ok, tableSize; cbn [cache withCache]; now rewrite length_insert
         | exact Hlen | unfold in_table, tableSize; lia].
      cbn [cache withCache]. now rewrite list_lookup_insert_eq by lia.
    + intros j Hj. apply list_lookup_insert_ne. lia.
  - destruct b as [|b0 [|b1 [|b2 b]]]; cbn [List.length] in Hb; try lia.
    unfold bind. rewrite cacheSet_in_range by (unfold tableSize; cbn [servo]; lia).
    rewrite byte_succ_to_Z by lia.
    rewrite cacheSet_in_range by (unfold tableSize; cbn [servo]; lia).
    cbn [fst snd ret servo withCache cache Ident statusReturnLevel].
    split.
    { cbn [decodeLE]. do 2 f_equal.
      rewrite lor_shiftl_8 by apply byte_to_Z_range. lia. }
    split; [|split; [reflexivity|split; [reflexivity|]]].
    + rewrite cacheRange_2;
        [| unfold cache_ok, tableSize; cbn [cache withCache]; now rewrite !length_insert
         | exact Hlen | unfold in_table, tableSize; lia].
      cbn [cache withCache].
      rewrite list_lookup_insert_ne by lia.
      rewrite list_lookup_insert_eq by lia.
      rewrite list_lookup_insert_eq by (rewrite length_insert; lia).
      reflexivity.
    + intros j Hj. rewrite !list_lookup_insert_ne by lia. reflexivity.
Qed.

(** X15: a live read that the transport fails.  [getRegister] returns the
    transport's error unchanged, after that one [ReadData] call, and the
    servo, cache included, is exactly as it was. *)
Theorem getRegister_transport_error reg b e ns' (w : World NetState) :
  Register.cacheable reg = false ->
  Register.length reg = 1 \/ Register.length reg = 2 ->
  statusReturnLevel (servo w) <> 0 ->
  ReadData net (Ident (servo w)) (Register.address reg) (Register.length reg)
    (netState w) = ((b, Some e), ns') ->
  getRegister net reg w =
    (Done (0, Some (NetError e)),
     {| servo := servo w; netState := ns';
        calls := calls w ++ [CallReadData (Ident (servo w)) (Register.address reg)
                               (Register.length reg)] |}).
Proof.
  intros Hc Hlen Hlvl Hread.
  rewrite (getRegister_live_step reg w Hc Hlen Hlvl). cbv zeta.
  rewrite Hread. reflexivity.
Qed.
End LiveReads.

Lemma getRegister_live_success_witness :
  fst (getRegister tableNet regPresentPosition (tableWorld 1)) = Done (564, None) /\
  cacheRange (servo (snd (getRegister tableNet regPresentPosition (tableWorld 1))))
    regPresentPosition = [x34; x02] /\
  cache (servo (snd (getRegister tableNet regPresentPosition (tableWorld 1)))) !! 35%nat =
    Some x00.
Proof.
  destruct (getRegister_live_success tableNet regPresentPosition [x34; x02] sampleTable
              (tableWorld 1)) as (Hv & Hc & _ & _ & Hframe).
  - reflexivity.
  - right. reflexivity.
  - unfold in_table. vm_compute. discriminate.
  - vm_compute. reflexivity.
  - vm_compute. discriminate.
  - vm_compute. reflexivity.
  - reflexivity.
  - split; [exact Hv|]. split; [exact Hc|].
    rewrite (Hframe 35%nat); [reflexivity|]. left. vm_compute. reflexivity.
Defined.

Lemma getRegister_transport_error_witness :
  getRegister downNet regPresentTemperature (freshWorld 1) =
    (Done (0, Some (NetError "timeout"%string)),
     {| servo := freshServo 1; netState := tt;
        calls := [CallReadData x01 x2b 1] |}).
Proof.
  apply (getRegister_transport_error downNet regPresentTemperature []
           "timeout"%string tt (freshWorld 1)).
  - reflexivity.
  - left. reflexivity.
  - vm_compute. discriminate.
  - reflexivity.
Defined.

(** *** The status return level, and what follows a change of it *)

Section LevelChanges.
Context {NetState NetErr : Type}.
Variable net : Networker NetState NetErr.

Lemma SetStatusReturnLevel_done_inv value (w w' : World NetState) :
  SetStatusReturnLevel net value w = (Done None, w') ->
  0 <= value <= 2 /\ servo w' = withLevel (servo w) value.
Proof.
  unfold SetStatusReturnLevel, bind.
  destruct (logMethod_world net "SetStatusReturnLevel(%d)" [LInt value] w) as (msg & ->).
  destruct ((value <? 0) || (value >? 2)) eqn:Hout; [discriminate|].
  apply orb_false_iff in Hout as [Hlo Hhi]. apply Z.ltb_ge in Hlo.
  assert (value <= 2) as Hhi'.
  { destruct (Z_le_gt_dec value 2) as [|Hgt]; [assumption|].
    apply Z.gt_lt, Z.gtb_lt in Hgt. congruence. }
  unfold getServo, netWriteData. cbn [servo netState calls].
  destruct (WriteData net (Ident (servo w)) (value =? 2)
              [addrStatusReturnLevel; low value] _) as [[e|] ns]; [discriminate|].
  unfold putServo, ret. intros [= <-]. split; [lia | reflexivity].
Qed.

(** X16: the level gates the live reads that follow.  Once
    [SetStatusReturnLevel(0)] has returned nil, [getRegister] on any register
    that is not cacheable is refused with the status-level error and makes no
    call; once [SetStatusReturnLevel(1)] or [(2)] has returned nil, it makes
    its one [ReadData] call again. *)
Theorem SetStatusReturnLevel_gates_reads value reg (w w' : World NetState) :
  SetStatusReturnLevel net value w = (Done None, w') ->
  Register.cacheable reg = false ->
  Register.length reg = 1 \/ Register.length reg = 2 ->
  (value = 0 ->
   getRegister net reg w' = (Done (0, Some ErrStatusLevelZero), w')) /\
  (value <> 0 ->
   calls (snd (getRegister net reg w')) =
     calls w' ++ [CallReadData (Ident (servo w)) (Register.address reg)
                    (Register.length reg)]).
Proof.
  intros Hset Hc Hlen.
  destruct (SetStatusReturnLevel_done_inv value w w' Hset) as (Hv & Hs).
  split.
  - intros ->.
    assert (negb (Register.length reg =? 1) && negb (Register.length reg =? 2) = false)
      as Hw by (destruct Hlen as [-> | ->]; reflexivity).
    unfold getRegister. rewrite Hw, Hc. cbv beta iota.
    unfold bind, getServo. rewrite Hs. reflexivity.
  - intros Hnz.
    assert (statusReturnLevel (servo w') <> 0) as Hlvl by now rewrite Hs.
    rewrite (getRegister_live_step net reg w' Hc Hlen Hlvl). cbv zeta.
    replace (Ident (servo w')) with (Ident (servo w)) by now rewrite Hs.
    destruct (ReadData net (Ident (servo w)) (Register.address reg)
                (Register.length reg) (netState w')) as [[b [e|]] ns]; cbn [fst snd].
    + reflexivity.
    + destruct b as [|b0 [|b1 [|b2 b]]]; try reflexivity.
      * unfold bind.
        match goal with |- context [cacheSet ?i ?x ?w0] =>
          pose proof (cacheSet_keeps_calls i x w0) as Hk;
          destruct (cacheSet i x w0) as [[[]|] w1] end; exact Hk.
      * unfold bind.
        match goal with |- context [cacheSet ?i ?x ?w0] =>
          pose proof (cacheSet_keeps_calls i x w0) as Hk;
          destruct (cacheSet i x w0) as [[[]|] w1] end; [|exact Hk].
        match goal with |- context [cacheSet ?i ?x w1] =>
          pose proof (cacheSet_keeps_calls i x w1) as Hk';
          destruct (cacheSet i x w1) as [[[]|] w2] end;
          simpl in *; congruence.
Qed.

(** X17: the level sets the acknowledgement policy of the writes that
    follow.  Once [SetStatusReturnLevel(value)] has returned nil, a
    [setRegister] that passes the local checks sends its [WriteData] with the
    acknowledgement flag [value = 2]. *)
Theorem SetStatusReturnLevel_sets_ack_policy value reg v (w w' : World NetState) :
  SetStatusReturnLevel net value w = (Done None, w') ->
  Register.access reg = rw ->
  Register.min reg <= v <= Register.max reg ->
  Register.length reg = 1 \/ Register.length reg = 2 ->
  in_table reg ->
  calls (snd (setRegister net reg v w')) =
    calls w' ++
      [CallWriteData (Ident (servo w)) (value =? 2)
         (Register.address reg :: encodeLE (Z.to_nat (Register.length reg)) v)].
Proof.
  intros Hset Hrw Hrange Hlen Hin.
  destruct (SetStatusReturnLevel_done_inv value w w' Hset) as (_ & Hs).
  rewrite (setRegister_accepted net reg v w' Hrw Hrange Hlen Hin).
  cbn [snd calls]. rewrite Hs. reflexivity.
Qed.

(** *** Errors mean that nothing happened *)

(** X18: whenever [getRegister] returns an error, the value beside it is 0
    and the servo is as it was; whenever [setRegister] returns an error, the
    whole world is as it was: no call on the network, no change to the
    cache. *)
Theorem errors_leave_servo_untouched reg (w w' : World NetState) :
  (forall v e, getRegister net reg w = (Done (v, Some e), w') ->
               v = 0 /\ servo w' = servo w) /\
  (forall value e, setRegister net reg value w = (Done (Some e), w') -> w' = w).
Proof.
  split; [|intros value e; apply setRegister_error_world].
  intros v e. unfold getRegister.
  destruct (negb (Register.length reg =? 1) && negb (Register.length reg =? 2));
    [now intros [= <- _ <-]|].
  destruct (Register.cacheable reg).
  - unfold bind.
    match goal with |- context [cacheGet ?i ?w0] =>
      destruct (cacheGet i w0) as [[b0|] w1] end; [|discriminate].
    destruct (Register.length reg =? 2); [|discriminate].
    match goal with |- context [cacheGet ?i w1] =>
      destruct (cacheGet i w1) as [[b1|] w2] end; discriminate.
  - unfold bind at 1. unfold getServo at 1.
    destruct (statusReturnLevel (servo w) =? 0); [now intros [= <- _ <-]|].
    unfold bind at 1. unfold netReadData.
    destruct (ReadData net (Ident (servo w)) (Register.address reg)
                (Register.length reg) (netState w)) as [[b [ne|]] ns].
    + now intros [= <- _ <-].
    + destruct b as [|b0 [|b1 [|b2 b]]]; try (now intros [= <- _ <-]).
      * unfold bind.
        match goal with |- context [cacheSet ?i ?x ?w0] =>
          destruct (cacheSet i x w0) as [[[]|] w1] end; discriminate.
      * unfold bind.
        match goal with |- context [cacheSet ?i ?x ?w0] =>
          destruct (cacheSet i x w0) as [[[]|] w1] end; [|discriminate].
        match goal with |- context [cacheSet ?i ?x w1] =>
          destruct (cacheSet i x w1) as [[[]|] w2] end; discriminate.
Qed.

(** X19: a descriptor whose width is neither 1 nor 2 is refused by both
    accessors with the register-length error and the world untouched;
    [setRegister] gets to that check only for a writable register and a
    value within its range. *)
Theorem invalid_width_rejected reg value (w : World NetState) :
  Register.length reg <> 1 -> Register.length reg <> 2 ->
  getRegister net reg w =
    (Done (0, Some (ErrRegisterLength (Register.length reg))), w) /\
  (Register.access reg = rw ->
   Register.min reg <= value <= Register.max reg ->
   setRegister net reg value w =
     (Done (Some (ErrRegisterLength (Register.length reg))), w)).
Proof.
  intros H1 H2. apply Z.eqb_neq in H1, H2. split.
  - unfold getRegister. now rewrite H1, H2.
  - intros Hrw Hrange. unfold setRegister. rewrite Hrw, H1, H2.
    assert ((value <? Register.min reg) = false) as -> by (apply Z.ltb_ge; lia).
    assert ((value >? Register.max reg) = false) as ->; [|reflexivity].
    destruct (value >? Register.max reg) eqn:E; [apply Z.gtb_lt in E; lia | reflexivity].
Qed.
End LevelChanges.

Lemma SetStatusReturnLevel_gates_reads_witness :
  getRegister tableNet regPresentPosition
    (snd (SetStatusReturnLevel tableNet 0 (tableWorld 2))) =
    (Done (0, Some ErrStatusLevelZero),
     snd (SetStatusReturnLevel tableNet 0 (tableWorld 2))) /\
  calls (snd (getRegister tableNet regPresentPosition
                (snd (SetStatusReturnLevel tableNet 1 (tableWorld 0))))) =
    calls (snd (SetStatusReturnLevel tableNet 1 (tableWorld 0))) ++
      [CallReadData x01 x24 2].
Proof.
  split.
  - apply (proj1 (SetStatusReturnLevel_gates_reads tableNet 0 regPresentPosition
                    (tableWorld 2) (snd (SetStatusReturnLevel tableNet 0 (tableWorld 2)))
                    eq_refl eq_refl (or_intror eq_refl))).
    reflexivity.
  - apply (proj2 (SetStatusReturnLevel_gates_reads tableNet 1 regPresentPosition
                    (tableWorld 0) (snd (SetStatusReturnLevel tableNet 1 (tableWorld 0)))
                    eq_refl eq_refl (or_intror eq_refl))).
    discriminate.
Defined.

Lemma SetStatusReturnLevel_sets_ack_policy_witness :
  device_calls
    (calls (snd (setRegister tableNet regLed 1
                   (snd (SetStatusReturnLevel tableNet 1 (tableWorld 2)))))) =
    [CallWriteData x01 false [x10; x01]; CallWriteData x01 false [x19; x01]].
Proof.
  rewrite (SetStatusReturnLevel_sets_ack_policy tableNet 1 regLed 1 (tableWorld 2)
             (snd (SetStatusReturnLevel tableNet 1 (tableWorld 2)))).
  - vm_compute. reflexivity.
  - vm_compute. reflexivity.
  - reflexivity.
  - vm_compute. split; discriminate.
  - left. reflexivity.
  - unfold in_table. vm_compute. discriminate.
Defined.

Lemma errors_leave_servo_untouched_witness :
  (0 = 0 /\ servo (snd (getRegister downNet regPresentPosition (lockedWorld))) =
            servo lockedWorld) /\
  snd (setRegister downNet regLed 7 lockedWorld) = lockedWorld.
Proof.
  split.
  - apply (proj1 (errors_leave_servo_untouched downNet regPresentPosition lockedWorld
                    (snd (getRegister downNet regPresentPosition lockedWorld)))
             0 (NetError "timeout"%string)).
    vm_compute. reflexivity.
  - apply (proj2 (errors_leave_servo_untouched downNet regLed lockedWorld
                    (snd (setRegister downNet regLed 7 lockedWorld)))
             7 (ErrValueTooHigh 7 1)).
    vm_compute. reflexivity.
Defined.

Lemma invalid_width_rejected_witness :
  getRegister downNet (mkReg x19 3 rw true 0 1) (freshWorld 2) =
    (Done (0, Some (ErrRegisterLength 3)), freshWorld 2) /\
  setRegister downNet (mkReg x19 3 rw true 0 1) 1 (freshWorld 2) =
    (Done (Some (ErrRegisterLength 3)), freshWorld 2).
Proof.
  destruct (invalid_width_rejected downNet (mkReg x19 3 rw true 0 1) 1 (freshWorld 2))
    as (Hget & Hset).
  - discriminate.
  - discriminate.
  - split; [exact Hget|]. apply Hset.
    + reflexivity.
    + vm_compute. split; discriminate.
Defined.

(** *** Angles already in range *)

Lemma leb_true_ltb_false a b : F64.leb a b = true -> F64.ltb b a = false.
Proof.
  unfold F64.leb, F64.ltb, SFleb, SFltb.
  destruct (SFcompare a b) as [c|] eqn:E; [|discriminate].
  rewrite (SFcompare_antisym _ _ _ E). now destruct c.
Qed.

(** X20: an angle that already lies in the closed interval from -180 to 180
    is returned as it is by the first call of [normalizeAngle], without a
    fold. *)
Theorem normalizeAngle_in_range_unchanged d :
  F64.leb (F64.of_Z (-180)) d = true ->
  F64.leb d (F64.of_Z 180) = true ->
  normalizeAngle 1 d = Some d.
Proof.
  intros Hlo Hhi. rewrite normalizeAngle_unfold.
  unfold F64.gtb. rewrite (leb_true_ltb_false _ _ Hhi).
  rewrite (leb_true_ltb_false _ _ Hlo). reflexivity.
Qed.

Lemma normalizeAngle_in_range_unchanged_witness :
  normalizeAngle 1 (F64.of_Z (-180)) = Some (F64.of_Z (-180)).
Proof.
  apply (normalizeAngle_in_range_unchanged (F64.of_Z (-180))).
  - vm_compute. reflexivity.
  - vm_compute. reflexivity.
Defined.
